(** * shannon-gpt: preflight gate and single-call execution pipeline

    A shallow embedding of

    - the preflight validation service ([validateRepo], [validateConfig],
      [validateCredentials], [runPreflightChecks]), and
    - the agent executor of [ai/claude-executor.ts] ([writeErrorLog],
      [validateAgentOutput], [runClaudePrompt], [processMessageStream]).

    Asynchronous functions become computations of the monad [Exec]: they
    thread a [State] (the trace of observable effects, the position in the
    sequence of clock readings and the mutable locals of the running
    executor) and either resolve to a value or reject with a thrown value.
    Everything outside the process (file system, environment variables, the
    HTTP endpoint, the wall clock) is an oracle of the record [World]; the
    functions of the repository that the two files import from elsewhere
    are the fields of the record [Collaborators]. *)

From Stdlib Require Import ZArith String DecimalString QArith Qcanon Lia.
From stdpp Require Import base strings gmap list.

Local Open Scope Z_scope.

(** ** JavaScript values *)

(** [String(n)] for an integral number. *)
Definition string_of_Z (z : Z) : string := NilZero.string_of_int (Z.to_int z).

(** Truthiness of a [string | null | undefined]: [None] stands for [null]
    or [undefined]; the empty string is falsy as well. *)
Definition truthy (v : option string) : option string :=
  match v with
  | Some EmptyString => None
  | Some s => Some s
  | None => None
  end.

(** [v || d] on strings. *)
Definition or_default (v : option string) (d : string) : string :=
  match truthy v with
  | Some s => s
  | None => d
  end.

(** [v ?? d]. *)
Definition nullish (v : option string) (d : string) : string :=
  match v with
  | Some s => s
  | None => d
  end.

(** A template-string rendering of a [string | null]. *)
Definition render (v : option string) : string :=
  match v with
  | Some s => s
  | None => "null"
  end.

(** ** Errors *)

(** Modelled from the spec: the enumeration [ErrorCode] of [types/errors]
    is not among the sources; these are the three codes the sources use,
    and [OTHER_CODE] stands for every other member. *)
Inductive ErrorCode : Type :=
| REPO_NOT_FOUND
| CONFIG_VALIDATION_FAILED
| AUTH_FAILED
| OTHER_CODE (name : string).

(** Modelled from the spec: the class [PentestError] of
    [services/error-handling] is not among the sources; the fields are the
    arguments of its constructor, in the order of the calls
    [new PentestError(message, category, retryable, context, code)]. *)
Record PentestError : Type := mkPentestError {
  pe_message : string;
  pe_category : string;
  pe_retryable : bool;
  pe_context : gmap string string;
  pe_code : option ErrorCode
}.

(** A plain [Error] instance (or an instance of a built-in subclass):
    the name of its constructor, its message and the optional [code] and
    [status] properties. *)
Record ErrorObject : Type := mkErrorObject {
  eo_ctor : string;
  eo_message : string;
  eo_code : option string;
  eo_status : option Z
}.

(** Values for which [instanceof Error] holds. *)
Inductive JsError : Type :=
| PlainError (e : ErrorObject)
| Pentest (e : PentestError).

(** Whatever a [throw] or a rejected promise can carry: an [Error], or any
    other (non-nullish) value, given by the name of its constructor and its
    [String()] rendering. *)
Inductive Thrown : Type :=
| ThrowError (e : JsError)
| ThrowValue (ctor rendered : string).

(** [new Error(message)]. *)
Definition new_Error (message : string) : JsError :=
  PlainError (mkErrorObject "Error" message None None).

(** [e.message] of an [Error]. *)
Definition error_message (e : JsError) : string :=
  match e with
  | PlainError o => eo_message o
  | Pentest p => pe_message p
  end.

(** [e.constructor.name] of an [Error]. *)
Definition error_ctor (e : JsError) : string :=
  match e with
  | PlainError o => eo_ctor o
  | Pentest _ => "PentestError"
  end.

(** [error instanceof Error ? error.message : String(error)]. *)
Definition message_of (t : Thrown) : string :=
  match t with
  | ThrowError e => error_message e
  | ThrowValue _ rendered => rendered
  end.

(** [error instanceof Error ? error : new Error(message)], with [message]
    as computed by [message_of]. *)
Definition as_Error (t : Thrown) : Thrown :=
  match t with
  | ThrowError e => ThrowError e
  | ThrowValue _ _ => ThrowError (new_Error (message_of t))
  end.

(** Modelled from the spec: the type [Result] of [types/result] with its
    constructors [ok] and [err] and its boolean field [.ok] is not among
    the sources. *)
Inductive Result (T E : Type) : Type :=
| ok (value : T)
| err (error : E).
Arguments ok {T E} value.
Arguments err {T E} error.

Definition is_ok {T E : Type} (r : Result T E) : bool :=
  match r with
  | ok _ => true
  | err _ => false
  end.

(** ** The outside world *)

(** [fs.Stats], as far as the sources look at it. *)
Record Stats : Type := mkStats { isDirectory : bool }.

(** The body of the POST request to the chat-completions endpoint, with the
    [Authorization] header. [None] as token budget is a [NaN], which
    [JSON.stringify] writes as [null]. *)
Record Request : Type := mkRequest {
  req_url : string;
  req_authorization : string;
  req_model : string;
  req_content : string;
  req_max_completion_tokens : option Z
}.

(** The JSON of a completion; [None] is an absent or [null] member, which
    [?.], [??] and [||] treat alike. *)
Record Message : Type := mkMessage { msg_content : option string }.
Record Choice : Type := mkChoice { ch_message : option Message }.
Record Completion : Type := mkCompletion {
  cmp_model : option string;
  cmp_choices : option (list (option Choice))
}.

(** An HTTP response: [response.ok], [response.status], and what awaiting
    [response.text()] and [response.json()] gives. *)
Record Response : Type := mkResponse {
  resp_ok : bool;
  resp_status : Z;
  resp_text : Thrown + string;
  resp_json : Thrown + Completion
}.

(** The entry [writeErrorLog] serialises. The [error] member of the entry
    is built from the name, message, code, status and stack of [log_error]. *)
Record ErrorLog : Type := mkErrorLog {
  log_timestamp : string;
  log_agent : string;
  log_error : Thrown;
  log_sourceDir : string;
  log_prompt : string;
  log_retryable : bool;
  log_duration : Z
}.

(** Observable effects, in program order. *)
Inductive Event : Type :=
| LogInfo (msg : string)
| LogWarn (msg : string)
| LogError (msg : string)
| ConsoleLog (line : string)
| FsStat (path : string)
| ParseConfig (path : string)
| Fetch (req : Request)
| FsAppendFile (path data : string)
| ProgressStart
| ProgressFinish (msg : string)
| ProgressStop
| AuditLlmResponse (session : string) (turn : Z) (text : string)
| AuditError (session : string) (e : Thrown) (duration turns : Z).

Definition is_fetch (e : Event) : bool :=
  match e with
  | Fetch _ => true
  | _ => false
  end.

Definition is_parse (e : Event) : bool :=
  match e with
  | ParseConfig _ => true
  | _ => false
  end.

Definition is_info (e : Event) : bool :=
  match e with
  | LogInfo _ => true
  | _ => false
  end.

(** The [let] variables of [runClaudePrompt] that its [catch] block reads. *)
Record Locals : Type := mkLocals {
  turnCount : Z;
  result : option string;
  apiErrorDetected : bool;
  totalCost : Qc
}.

Record State : Type := mkState {
  trace : list Event;
  ticks : nat;
  locals : Locals
}.

(** A computation: from a state to a rejection or a value, and the state
    it leaves. The state survives a rejection. *)
Definition Exec (A : Type) : Type := State → (Thrown + A) * State.

#[global] Instance Exec_ret : MRet Exec := λ A a s, (inr a, s).

#[global] Instance Exec_bind : MBind Exec := λ A B f m s,
  match m s with
  | (inr a, s') => f a s'
  | (inl t, s') => (inl t, s')
  end.

Definition throw {A : Type} (t : Thrown) : Exec A := λ s, (inl t, s).

(** [try { body } catch (error) { handler }]. *)
Definition try_catch {A : Type} (body : Exec A) (handler : Thrown → Exec A) : Exec A :=
  λ s,
    match body s with
    | (inr a, s') => (inr a, s')
    | (inl t, s') => handler t s'
    end.

(** Awaiting a promise of the outside world. *)
Definition await {A : Type} (outcome : Thrown + A) : Exec A := λ s, (outcome, s).

Definition emit (e : Event) : Exec unit :=
  λ s, (inr tt, mkState (trace s ++ [e]) (ticks s) (locals s)).

Definition get_locals : Exec Locals := λ s, (inr (locals s), s).

Definition set_locals (l : Locals) : Exec unit :=
  λ s, (inr tt, mkState (trace s) (ticks s) l).

(** The events a computation appended: [trace_since s s'] is what the
    trace of [s'] holds beyond that of [s]. *)
Definition trace_since (s s' : State) : list Event :=
  drop (length (trace s)) (trace s').

Record World : Type := mkWorld {
  (** [fs.stat(path)] *)
  stat : string → Thrown + Stats;
  (** [parseConfig(path)]; [None] when it resolves *)
  parseConfig : string → option Thrown;
  (** [process.env] *)
  env : gmap string string;
  (** [fetch(url, init)] *)
  fetch : Request → Thrown + Response;
  (** [fs.appendFile(path, data)]; [None] when it resolves *)
  appendFile : string → string → option Thrown;
  (** the successive readings of [Date.now()] *)
  clock : nat → Z;
  (** [global.SHANNON_DISABLE_LOADER] *)
  SHANNON_DISABLE_LOADER : option bool
}.

Definition API_URL : string := "https://api.openai.com/v1/chat/completions".

(** The logger never rejects: its calls are recorded and nothing else. *)
Definition logger_info (msg : string) : Exec unit := emit (LogInfo msg).
Definition logger_warn (msg : string) : Exec unit := emit (LogWarn msg).
Definition logger_error (msg : string) : Exec unit := emit (LogError msg).

(** [new Error(`OpenAI API error (${response.status}): ${errorText}`)]. *)
Definition api_error (status : Z) (errorText : string) : Thrown :=
  ThrowError (new_Error
    ("OpenAI API error (" +:+ string_of_Z status +:+ "): " +:+ errorText)).

(** What a completion request fails with, when it fails: the rejection of
    [fetch], or, on a non-success response, the rejection of
    [response.text()] or else the error made of the status and the body. *)
Definition request_failure (outcome : Thrown + Response) : option Thrown :=
  match outcome with
  | inl t => Some t
  | inr response =>
    if resp_ok response then None
    else Some (match resp_text response with
               | inl t => t
               | inr errorText => api_error (resp_status response) errorText
               end)
  end.

Section Preflight.

Context (isRetryableError : Thrown → bool).
Context (w : World).

Definition fs_stat (path : string) : Exec Stats :=
  emit (FsStat path);; await (stat w path).

Definition do_parseConfig (path : string) : Exec unit :=
  emit (ParseConfig path);;
  await (match parseConfig w path with
         | Some t => inl t
         | None => inr tt
         end).

Definition do_fetch (req : Request) : Exec Response :=
  emit (Fetch req);; await (fetch w req).

Definition repo_error (message repoPath : string) : PentestError :=
  mkPentestError message "config" false {[ "repoPath" := repoPath ]}
                 (Some REPO_NOT_FOUND).

(** An early [return] from inside a [try] block is [Some] of the
    returned value; [None] falls through to the next statement. *)
Definition validateRepo (repoPath : string) : Exec (Result unit PentestError) :=
  logger_info "Checking repository path...";;
  (* 1. Check repo directory exists *)
  r1 ← try_catch
         (stats ← fs_stat repoPath;
          if negb (isDirectory stats)
          then mret (Some (err (repo_error
                 ("Repository path is not a directory: " +:+ repoPath) repoPath)))
          else mret None)
         (λ _, mret (Some (err (repo_error
                 ("Repository path does not exist: " +:+ repoPath) repoPath))));
  match r1 with
  | Some returned => mret returned
  | None =>
    (* 2. Check .git directory exists *)
    r2 ← try_catch
           (gitStats ← fs_stat (repoPath +:+ "/.git");
            if negb (isDirectory gitStats)
            then mret (Some (err (repo_error
                   ("Not a git repository (no .git directory): " +:+ repoPath) repoPath)))
            else mret None)
           (λ _, mret (Some (err (repo_error
                   ("Not a git repository (no .git directory): " +:+ repoPath) repoPath))));
    match r2 with
    | Some returned => mret returned
    | None =>
      logger_info "Repository path OK";;
      mret (ok tt)
    end
  end.

Definition validateConfig (configPath : string) : Exec (Result unit PentestError) :=
  logger_info "Validating configuration file...";;
  try_catch
    (do_parseConfig configPath;;
     logger_info "Configuration file OK";;
     mret (ok tt))
    (λ error,
       match error with
       | ThrowError (Pentest e) => mret (err e)
       | _ =>
         let message := message_of error in
         mret (err (mkPentestError
                 ("Configuration validation failed: " +:+ message)
                 "config" false {[ "configPath" := configPath ]}
                 (Some CONFIG_VALIDATION_FAILED)))
       end).

(** The minimal completion request of the credential check. *)
Definition credential_request (key : string) : Request :=
  mkRequest API_URL ("Bearer " +:+ key)
            (or_default (env w !! "OPENAI_MODEL") "gpt-4.1-mini") "ping" (Some 16).

Definition validateCredentials : Exec (Result unit PentestError) :=
  (* 1. Check that API key is present *)
  match truthy (env w !! "OPENAI_API_KEY") with
  | None =>
    mret (err (mkPentestError
            "No API credentials found. Set OPENAI_API_KEY in .env"
            "config" false ∅ (Some AUTH_FAILED)))
  | Some key =>
    (* 2. Validate via a minimal Chat Completions request *)
    let authType := "OpenAI API key" in
    logger_info ("Validating " +:+ authType +:+ "...");;
    try_catch
      (response ← do_fetch (credential_request key);
       if negb (resp_ok response)
       then
         errorText ← await (resp_text response);
         throw (api_error (resp_status response) errorText)
       else
         logger_info (authType +:+ " OK");;
         mret (ok tt))
      (λ error,
         let message := message_of error in
         let retryable := isRetryableError (as_Error error) in
         mret (err (mkPentestError
                 (if retryable
                  then "Failed to reach OpenAI API. Check your network connection."
                  else authType +:+ " validation failed: " +:+ message)
                 (if retryable then "network" else "config")
                 retryable
                 {[ "authType" := authType ]}
                 (if retryable then None else Some AUTH_FAILED))))
  end.

Definition runPreflightChecks (repoPath : string) (configPath : option string)
  : Exec (Result unit PentestError) :=
  (* 1. Repository check (free: filesystem only) *)
  repoResult ← validateRepo repoPath;
  if negb (is_ok repoResult) then mret repoResult
  else
    (* 2. Config check (free: filesystem + CPU) *)
    r ← match truthy configPath with
        | Some path =>
          configResult ← validateConfig path;
          if negb (is_ok configResult) then mret (Some configResult)
          else mret None
        | None => mret None
        end;
    match r with
    | Some returned => mret returned
    | None =>
      (* 3. Credential check (cheap: 1 API round-trip) *)
      credResult ← validateCredentials;
      if negb (is_ok credResult) then mret credResult
      else
        logger_info "All preflight checks passed";;
        mret (ok tt)
    end.

End Preflight.

(** ** The executor *)

Definition newline : string := String (Ascii.ascii_of_nat 10) EmptyString.

Definition dquote : string := String (Ascii.ascii_of_nat 34) EmptyString.

(** [s.slice(0, n)]. *)
Definition slice0 (n : nat) (s : string) : string := String.substring 0 n s.

(** [s.toLowerCase()] on ASCII letters. *)
Definition toLowerCase_ascii (c : Ascii.ascii) : Ascii.ascii :=
  let n := Ascii.nat_of_ascii c in
  if (Nat.leb 65 n && Nat.leb n 90)%bool then Ascii.ascii_of_nat (n + 32) else c.

Fixpoint toLowerCase (s : string) : string :=
  match s with
  | EmptyString => EmptyString
  | String c s' => String (toLowerCase_ascii c) (toLowerCase s')
  end.

(** The ASCII characters of the class [\s]. *)
Definition is_space (c : Ascii.ascii) : bool :=
  let n := Ascii.nat_of_ascii c in
  (Nat.eqb n 32 || (Nat.leb 9 n && Nat.leb n 13))%bool.

(** [s.replace(/\s+/g, '-')]; [in_run] tells that the previous character
    was a space already replaced. *)
Fixpoint replace_spaces (in_run : bool) (s : string) : string :=
  match s with
  | EmptyString => EmptyString
  | String c s' =>
    if is_space c
    then (if in_run then replace_spaces true s'
          else String (Ascii.ascii_of_nat 45) (replace_spaces true s'))
    else String c (replace_spaces false s')
  end.

Record ClaudePromptResult : Type := mkClaudePromptResult {
  r_result : option string;
  r_success : bool;
  r_duration : Z;
  r_turns : option Z;
  r_cost : Qc;
  r_model : option string;
  r_partialCost : option Qc;
  r_apiErrorDetected : option bool;
  r_error : option string;
  r_errorType : option string;
  r_prompt : option string;
  r_retryable : option bool
}.

Record MessageLoopResult : Type := mkMessageLoopResult {
  mlr_turnCount : Z;
  mlr_result : option string;
  mlr_apiErrorDetected : bool;
  mlr_cost : Qc;
  mlr_model : option string
}.

Record Options : Type := mkOptions {
  opt_model : string;
  opt_maxOutputTokens : option Z
}.

(** Modelled from the spec: what [detectExecutionContext] of
    [ai/output-formatters] returns is not among the sources; the executor
    reads its flag [useCleanOutput] only. *)
Record ExecutionContext : Type := mkExecutionContext { useCleanOutput : bool }.

Record MessageLoopDeps : Type := mkMessageLoopDeps {
  deps_execContext : ExecutionContext;
  deps_description : string;
  deps_auditLogger : option string
}.

(** Modelled from the spec: the class [Timer] of [utils/metrics] is not
    among the sources. It measures the elapsed wall-clock duration of one
    execution, exposing its start time and stop/duration. *)
Record Timer : Type := mkTimer {
  timer_name : string;
  startTime : Z
}.

(** What [validateAgentOutput] resolves to. Its declared type is
    [boolean]; the value a call returns is passed on as it is, and a member
    inherited from [Object.prototype] can return a string or a [String]
    object. *)
Inductive Verdict : Type :=
| VBool (b : bool)
| VString (text : string)
| VStringObject (text : string).

(** Truthiness of a verdict: an object is truthy, a string unless empty. *)
Definition verdict_truthy (v : Verdict) : bool :=
  match v with
  | VBool b => b
  | VString text => bool_decide (is_Some (truthy (Some text)))
  | VStringObject _ => true
  end.

(** The members every plain object inherits from [Object.prototype]. *)
Inductive ObjectPrototypeMember : Type :=
| OP_constructor
| OP_toString
| OP_toLocaleString
| OP_valueOf
| OP_hasOwnProperty
| OP_isPrototypeOf
| OP_propertyIsEnumerable
| OP___proto__
| OP___defineGetter__
| OP___defineSetter__
| OP___lookupGetter__
| OP___lookupSetter__.

Definition Object_prototype : gmap string ObjectPrototypeMember :=
  list_to_map
    [("constructor", OP_constructor);
     ("toString", OP_toString);
     ("toLocaleString", OP_toLocaleString);
     ("valueOf", OP_valueOf);
     ("hasOwnProperty", OP_hasOwnProperty);
     ("isPrototypeOf", OP_isPrototypeOf);
     ("propertyIsEnumerable", OP_propertyIsEnumerable);
     ("__proto__", OP___proto__);
     ("__defineGetter__", OP___defineGetter__);
     ("__defineSetter__", OP___defineSetter__);
     ("__lookupGetter__", OP___lookupGetter__);
     ("__lookupSetter__", OP___lookupSetter__)].

(** What [AGENT_VALIDATORS[name]] evaluates to when it is not [undefined]:
    a registered validator, or an inherited member. *)
Inductive Callee : Type :=
| Registered (validate : string → Exec bool)
| Inherited (member : ObjectPrototypeMember).

(** The functions the executor imports from files that are not among the
    sources, and the built-ins it applies to strings it does not control. *)
Record Collaborators : Type := mkCollaborators {
  (** [isRetryableError] of [services/error-handling] *)
  isRetryableError : Thrown → bool;
  (** whether a text matches the degenerate pattern of
      [utils/billing-detection] *)
  matchesDegeneratePattern : string → bool;
  (** [detectExecutionContext], [formatErrorOutput] and
      [formatCompletionMessage] of [ai/output-formatters] *)
  detectExecutionContext : string → ExecutionContext;
  formatErrorOutput :
    Thrown → ExecutionContext → string → Z → string → bool → list string;
  formatCompletionMessage : ExecutionContext → string → Z → Z → string;
  (** how [formatTimestamp()] of [utils/formatting] writes the reading of
      the clock it takes *)
  formatTimestamp : Z → string;
  (** the own properties of [AGENT_VALIDATORS] of [session-manager]: the
      registered validators, each applied to the source directory *)
  AGENT_VALIDATORS : gmap string (string → Exec bool);
  (** [JSON.stringify], [path.join] and [Number] *)
  JSON_stringify : ErrorLog → string;
  path_join : string → string → string;
  Number : string → option Z;
  (** the message the engine gives the [TypeError] it throws when a member
      of [Object.prototype] is called as a plain function *)
  TypeError_message : ObjectPrototypeMember → string
}.

Section Executor.

Context (lib : Collaborators).
Context (w : World).

(** [Date.now()]: the next reading of the clock. *)
Definition Date_now : Exec Z :=
  λ s, (inr (clock w (ticks s)), mkState (trace s) (S (ticks s)) (locals s)).

(** Modelled from the spec: [new Timer(name)] takes the start time from
    the clock, and [timer.stop()] reads the clock again and returns the
    time elapsed since the start. *)
Definition new_Timer (name : string) : Exec Timer :=
  now ← Date_now;
  mret (mkTimer name now).

Definition timer_stop (timer : Timer) : Exec Z :=
  now ← Date_now;
  mret (now - startTime timer).

(** Modelled from the spec: the progress manager of [ai/progress-manager]
    is not among the sources. It signals the start, the completion and the
    stop of one operation and does not reject. *)
Definition progress_start : Exec unit := emit ProgressStart.
Definition progress_finish (msg : string) : Exec unit := emit (ProgressFinish msg).
Definition progress_stop : Exec unit := emit ProgressStop.

(** Modelled from the spec: the audit logger of [ai/audit-logger] is not
    among the sources. It appends to the audit session it is bound to, does
    nothing at all when no session is bound, and does not reject. *)
Definition auditLogger_logLlmResponse (auditLogger : option string)
  (turn : Z) (text : string) : Exec unit :=
  match auditLogger with
  | Some session => emit (AuditLlmResponse session turn text)
  | None => mret tt
  end.

Definition auditLogger_logError (auditLogger : option string)
  (e : Thrown) (duration turns : Z) : Exec unit :=
  match auditLogger with
  | Some session => emit (AuditError session e duration turns)
  | None => mret tt
  end.

(** Modelled from the spec: [isSpendingCapBehavior] of
    [utils/billing-detection] is not among the sources. It triggers when
    turnCount > 0 AND cost == 0 AND resultText matches the degenerate
    pattern. *)
Definition isSpendingCapBehavior (turns : Z) (cost : Qc) (resultText : string) : bool :=
  bool_decide (0 < turns) && bool_decide (cost = 0%Qc)
  && matchesDegeneratePattern lib resultText.

Fixpoint outputLines (lines : list string) : Exec unit :=
  match lines with
  | [] => mret tt
  | line :: rest => emit (ConsoleLog line);; outputLines rest
  end.

Definition fs_appendFile (path data : string) : Exec unit :=
  emit (FsAppendFile path data);;
  await (match appendFile w path data with
         | Some t => inl t
         | None => inr tt
         end).

(** Modelled from the spec: [formatTimestamp] of [utils/formatting] is not
    among the sources. A call takes one reading of the clock and writes it
    as the timestamp of the log entry. *)
Definition do_formatTimestamp : Exec string :=
  now ← Date_now;
  mret (formatTimestamp lib now).

Definition writeErrorLog (error : Thrown) (sourceDir fullPrompt : string)
  (duration : Z) : Exec unit :=
  try_catch
    (timestamp ← do_formatTimestamp;
     let errorLog :=
       mkErrorLog timestamp "claude-executor" error sourceDir
                  (slice0 200 fullPrompt +:+ "...")
                  (isRetryableError lib error) duration in
     let logPath := path_join lib sourceDir "error.log" in
     fs_appendFile logPath (JSON_stringify lib errorLog +:+ newline))
    (λ _, (* Best-effort error log writing - don't propagate failures *)
       mret tt).

(** [AGENT_VALIDATORS[name]]. [AGENT_VALIDATORS] of [session-manager] is not
    among the sources: its own properties are a parameter. The executor
    indexes it as a plain object, so a name that is not an own property is
    looked up in [Object.prototype]. *)
Definition lookup_validator (name : string) : option Callee :=
  match AGENT_VALIDATORS lib !! name with
  | Some validate => Some (Registered validate)
  | None => Inherited <$> Object_prototype !! name
  end.

(** The call [member(sourceDir, logger)] of an inherited member, in a
    module, where [this] is [undefined]: [Object] wraps the string,
    [toString] names the [this] value, [isPrototypeOf] answers false for a
    value that is not an object, [__proto__] is the prototype itself and no
    function, and the others fail to convert [this] to an object. *)
Definition call_inherited (member : ObjectPrototypeMember) (sourceDir : string)
  : Thrown + Verdict :=
  match member with
  | OP_constructor => inr (VStringObject sourceDir)
  | OP_toString => inr (VString "[object Undefined]")
  | OP_isPrototypeOf => inr (VBool false)
  | _ => inl (ThrowError (PlainError
                (mkErrorObject "TypeError" (TypeError_message lib member) None None)))
  end.

(** [await validator(sourceDir, logger)]. *)
Definition call_validator (validator : Callee) (sourceDir : string) : Exec Verdict :=
  match validator with
  | Registered validate => verdict ← validate sourceDir; mret (VBool verdict)
  | Inherited member => await (call_inherited member sourceDir)
  end.

Definition validateAgentOutput (res : ClaudePromptResult)
  (agentName : option string) (sourceDir : string) : Exec Verdict :=
  logger_info ("Validating " +:+ render agentName +:+ " agent output");;
  try_catch
    ((* Check if agent completed successfully *)
     if negb (r_success res) || negb (bool_decide (is_Some (truthy (r_result res))))
     then
       logger_error "Validation failed: Agent execution was unsuccessful";;
       mret (VBool false)
     else
       (* Get validator function for this agent *)
       let validator :=
         match truthy agentName with
         | Some name => lookup_validator name
         | None => None
         end in
       match validator with
       | None =>
         logger_warn ("No validator found for agent " +:+ dquote
                        +:+ render agentName +:+ dquote +:+ " - assuming success");;
         logger_info "Validation passed: Unknown agent with successful result";;
         mret (VBool true)
       | Some validator =>
         logger_info ("Using validator for agent: " +:+ render agentName);;
         (* Apply validation function *)
         validationResult ← call_validator validator sourceDir;
         (if verdict_truthy validationResult
          then logger_info "Validation passed: Required files/structure present"
          else logger_error "Validation failed: Missing required deliverable files");;
         mret validationResult
       end)
    (λ error,
       let errMsg := message_of error in
       logger_error ("Validation failed with error: " +:+ errMsg);;
       mret (VBool false)).

Definition HEARTBEAT_INTERVAL : Z := 30000.

(** [completion.choices?.[0]?.message?.content]. *)
Definition first_content (completion : Completion) : option string :=
  choices ← cmp_choices completion;
  choice ← mjoin (choices !! 0%nat);
  message ← ch_message choice;
  msg_content message.

Definition heartbeat_line (now : Z) (timer : Timer) (description : string) : string :=
  "[" +:+ string_of_Z ((now - startTime timer) / 1000) +:+ "s] "
      +:+ description +:+ " running...".

(** The one completion request of the executor. *)
Definition completion_request (fullPrompt : string) (options : Options) : Request :=
  mkRequest API_URL
            ("Bearer " +:+ or_default (env w !! "OPENAI_API_KEY") EmptyString)
            (opt_model options) fullPrompt (opt_maxOutputTokens options).

Definition processMessageStream (fullPrompt : string) (options : Options)
  (deps : MessageLoopDeps) (timer : Timer) : Exec MessageLoopResult :=
  let description := deps_description deps in
  let auditLogger := deps_auditLogger deps in
  lastHeartbeat ← Date_now;
  now ← Date_now;
  (if bool_decide (SHANNON_DISABLE_LOADER w = Some true)
      && bool_decide (now - lastHeartbeat > HEARTBEAT_INTERVAL)
   then logger_info (heartbeat_line now timer description)
   else mret tt);;
  response ← do_fetch w (completion_request fullPrompt options);
  if negb (resp_ok response)
  then
    errorText ← await (resp_text response);
    throw (api_error (resp_status response) errorText)
  else
    completion ← await (resp_json response);
    let turns := 1 in
    let text := nullish (first_content completion) EmptyString in
    let model := or_default (cmp_model completion) (opt_model options) in
    let cost := 0%Qc in
    auditLogger_logLlmResponse auditLogger turns text;;
    mret (mkMessageLoopResult turns (Some text) false cost (Some model)).

Definition spending_cap_error (l : Locals) : PentestError :=
  mkPentestError
    ("Spending cap likely reached (turns=" +:+ string_of_Z (turnCount l)
       +:+ ", cost=$0): "
       +:+ match result l with
           | Some text => slice0 100 text
           | None => "undefined"
           end)
    "billing"
    true (* Retryable - Temporal will use 5-30 min backoff *)
    ∅ None.

(** The [try] block of [runClaudePrompt]. *)
Definition runClaudePrompt_try (fullPrompt description : string)
  (options : Options) (execContext : ExecutionContext)
  (auditLogger : option string) (timer : Timer) : Exec ClaudePromptResult :=
  (* 4. Process prompt with ChatGPT API *)
  messageLoopResult ← processMessageStream fullPrompt options
    (mkMessageLoopDeps execContext description auditLogger) timer;
  set_locals (mkLocals (mlr_turnCount messageLoopResult)
                       (mlr_result messageLoopResult)
                       (mlr_apiErrorDetected messageLoopResult)
                       (mlr_cost messageLoopResult));;
  let model := mlr_model messageLoopResult in
  l ← get_locals;
  (* 7. Defense-in-depth: detect spending cap *)
  if isSpendingCapBehavior (turnCount l) (totalCost l) (or_default (result l) EmptyString)
  then throw (ThrowError (Pentest (spending_cap_error l)))
  else
    (* 8. Finalize successful result *)
    duration ← timer_stop timer;
    (if apiErrorDetected l
     then logger_warn ("API Error detected in " +:+ description
                         +:+ " - will validate deliverables before failing")
     else mret tt);;
    progress_finish
      (formatCompletionMessage lib execContext description (turnCount l) duration);;
    mret (mkClaudePromptResult (result l) true duration (Some (turnCount l))
            (totalCost l) model (Some (totalCost l)) (Some (apiErrorDetected l))
            None None None None).

(** [err.message] and [err.constructor.name] after the cast
    [error as Error]. *)
Definition cast_message (t : Thrown) : option string :=
  match t with
  | ThrowError e => Some (error_message e)
  | ThrowValue _ _ => None
  end.

Definition cast_ctor (t : Thrown) : string :=
  match t with
  | ThrowError e => error_ctor e
  | ThrowValue ctor _ => ctor
  end.

(** The object the [catch] block returns. *)
Definition failure_result (fullPrompt : string) (duration : Z) (cost : Qc)
  (error : Thrown) : ClaudePromptResult :=
  mkClaudePromptResult None false duration None cost None None None
    (cast_message error) (Some (cast_ctor error))
    (Some (slice0 100 fullPrompt +:+ "..."))
    (Some (isRetryableError lib error)).

(** A result that reports the failure [error]: it is unsuccessful and
    carries the message, the type name and the retryability of [error]. *)
Definition failed_with (r : ClaudePromptResult) (error : Thrown) : Prop :=
  r_success r = false
  ∧ r_error r = cast_message error
  ∧ r_errorType r = Some (cast_ctor error)
  ∧ r_retryable r = Some (isRetryableError lib error).

(** The [catch] block of [runClaudePrompt]. *)
Definition runClaudePrompt_catch (fullPrompt description sourceDir : string)
  (execContext : ExecutionContext) (auditLogger : option string)
  (timer : Timer) (error : Thrown) : Exec ClaudePromptResult :=
  (* 9. Handle errors: log, write error file, return failure *)
  duration ← timer_stop timer;
  l ← get_locals;
  auditLogger_logError auditLogger error duration (turnCount l);;
  progress_stop;;
  outputLines (formatErrorOutput lib error execContext description duration
                 sourceDir (isRetryableError lib error));;
  writeErrorLog error sourceDir fullPrompt duration;;
  mret (failure_result fullPrompt duration (totalCost l) error).

Definition missing_key_error : PentestError :=
  mkPentestError
    "OPENAI_API_KEY is not set. Configure OpenAI credentials before running agents."
    "config" false ∅ None.

(** [context ? `${context}\n\n${prompt}` : prompt]. *)
Definition compose_prompt (context prompt : string) : string :=
  match truthy (Some context) with
  | Some c => c +:+ newline +:+ newline +:+ prompt
  | None => prompt
  end.

(** The model and the token budget, from the environment or the defaults. *)
Definition client_options : Options :=
  mkOptions (or_default (env w !! "OPENAI_MODEL") "gpt-4.1")
            (Number lib (or_default (env w !! "OPENAI_MAX_OUTPUT_TOKENS") "64000")).

(** The parameters [context] and [description] have defaults, taken when
    the caller passes [undefined] ([None]). *)
Definition runClaudePrompt (prompt sourceDir : string)
  (context description : option string) (_agentName : option string)
  (auditSession : option string) : Exec ClaudePromptResult :=
  let context := default EmptyString context in
  let description := default "Claude analysis" description in
  (* 1. Initialize timing and prompt *)
  timer ← new_Timer ("agent-" +:+ replace_spaces false (toLowerCase description));
  let fullPrompt := compose_prompt context prompt in
  (* 2. Set up progress and audit infrastructure *)
  let execContext := detectExecutionContext lib description in
  let auditLogger := auditSession in
  logger_info ("Running Claude Code: " +:+ description +:+ "...");;
  match truthy (env w !! "OPENAI_API_KEY") with
  | None => throw (ThrowError (Pentest missing_key_error))
  | Some _ =>
    (* 3. Configure OpenAI client options *)
    let options := client_options in
    (if negb (useCleanOutput execContext)
     then logger_info ("OpenAI Options: model=" +:+ opt_model options
                         +:+ ", cwd=" +:+ sourceDir)
     else mret tt);;
    set_locals (mkLocals 0 None false 0%Qc);;
    progress_start;;
    try_catch
      (runClaudePrompt_try fullPrompt description options execContext auditLogger timer)
      (runClaudePrompt_catch fullPrompt description sourceDir execContext auditLogger timer)
  end.

(** The result of [runClaudePrompt] in closed form, as a function of the
    answer to its one request; [runClaudePrompt_run] below proves that this
    is what the function returns whenever a key is present. *)
Definition pipeline_result (fullPrompt : string) (duration : Z) : ClaudePromptResult :=
  match fetch w (completion_request fullPrompt client_options) with
  | inl t => failure_result fullPrompt duration 0%Qc t
  | inr response =>
    if resp_ok response then
      match resp_json response with
      | inl t => failure_result fullPrompt duration 0%Qc t
      | inr completion =>
        let text := nullish (first_content completion) EmptyString in
        if isSpendingCapBehavior 1 0%Qc (or_default (Some text) EmptyString)
        then failure_result fullPrompt duration 0%Qc
               (ThrowError (Pentest (spending_cap_error
                  (mkLocals 1 (Some text) false 0%Qc))))
        else mkClaudePromptResult (Some text) true duration (Some 1) 0%Qc
               (Some (or_default (cmp_model completion) (opt_model client_options)))
               (Some 0%Qc) (Some false) None None None None
      end
    else failure_result fullPrompt duration 0%Qc
           (match resp_text response with
            | inl t => t
            | inr errorText => api_error (resp_status response) errorText
            end)
  end.

End Executor.

(** ** Footprints

    Classes of events, and the traces of the functions in closed form,
    for stating what a function touches and in which order. *)

Definition is_stat (e : Event) : bool :=
  match e with
  | FsStat _ => true
  | _ => false
  end.

(** The calls that leave the process during preflight: the file system,
    the configuration parser and the endpoint. *)
Definition is_io (e : Event) : bool :=
  match e with
  | FsStat _ | ParseConfig _ | Fetch _ => true
  | _ => false
  end.

Definition is_progress (e : Event) : bool :=
  match e with
  | ProgressStart | ProgressFinish _ | ProgressStop => true
  | _ => false
  end.

Definition is_audit (e : Event) : bool :=
  match e with
  | AuditLlmResponse _ _ _ | AuditError _ _ _ _ => true
  | _ => false
  end.



(** What the configuration check returns for a thrown value [t]: a
    [PentestError] as it is, anything else wrapped. *)
Definition config_wrapped (configPath : string) (t : Thrown) : PentestError :=
  match t with
  | ThrowError (Pentest typed) => typed
  | _ => mkPentestError ("Configuration validation failed: " +:+ message_of t)
                        "config" false {[ "configPath" := configPath ]}
                        (Some CONFIG_VALIDATION_FAILED)
  end.

(** [path] exists and is a directory. *)
Definition directory_at (w : World) (path : string) : Prop :=
  ∃ stats, stat w path = inr stats ∧ isDirectory stats = true.

Section Footprints.

Context (lib : Collaborators).
Context (w : World).

(** The calls of a preflight run in which every check passes, in order. *)
Definition preflight_io (repoPath : string) (configPath : option string) : list Event :=
  [FsStat repoPath; FsStat (repoPath +:+ "/.git")]
  ++ match truthy configPath with
     | Some path => [ParseConfig path]
     | None => []
     end
  ++ match truthy (env w !! "OPENAI_API_KEY") with
     | Some key => [Fetch (credential_request w key)]
     | None => []
     end.

(** The line [writeErrorLog] appends. *)
Definition error_log_line (error : Thrown) (sourceDir fullPrompt : string)
  (duration stamp : Z) : string :=
  JSON_stringify lib
    (mkErrorLog (formatTimestamp lib stamp) "claude-executor" error sourceDir
                (slice0 200 fullPrompt +:+ "...") (isRetryableError lib error) duration)
  +:+ newline.

(** The events of the [catch] block of [runClaudePrompt]; [stamp] is the
    reading of the clock the log entry is stamped with. *)
Definition catch_events (fullPrompt description sourceDir : string)
  (execContext : ExecutionContext) (auditLogger : option string) (stamp : Z)
  (error : Thrown) (duration turns : Z) : list Event :=
  match auditLogger with
  | Some session => [AuditError session error duration turns]
  | None => []
  end
  ++ [ProgressStop]
  ++ map ConsoleLog (formatErrorOutput lib error execContext description duration
                       sourceDir (isRetryableError lib error))
  ++ [FsAppendFile (path_join lib sourceDir "error.log")
                   (error_log_line error sourceDir fullPrompt duration stamp)].

(** The events of the [try] and [catch] blocks of [runClaudePrompt],
    entered at the clock reading number [entry]. *)
Definition body_events (fullPrompt description sourceDir : string)
  (execContext : ExecutionContext) (auditSession : option string)
  (timer : Timer) (entry : nat) : list Event :=
  let options := client_options lib w in
  let now := clock w (S entry) in
  let duration := clock w (S (S entry)) - startTime timer in
  let caught := catch_events fullPrompt description sourceDir execContext auditSession
                             (clock w (S (S (S entry)))) in
  (if bool_decide (SHANNON_DISABLE_LOADER w = Some true)
      && bool_decide (now - clock w entry > HEARTBEAT_INTERVAL)
   then [LogInfo (heartbeat_line now timer description)] else [])
  ++ [Fetch (completion_request w fullPrompt options)]
  ++ match fetch w (completion_request w fullPrompt options) with
     | inl t => caught t duration 0
     | inr response =>
       if resp_ok response then
         match resp_json response with
         | inl t => caught t duration 0
         | inr completion =>
           let text := nullish (first_content completion) EmptyString in
           match auditSession with
           | Some session => [AuditLlmResponse session 1 text]
           | None => []
           end
           ++ (if isSpendingCapBehavior lib 1 0%Qc (or_default (Some text) EmptyString)
               then caught (ThrowError (Pentest (spending_cap_error
                               (mkLocals 1 (Some text) false 0%Qc)))) duration 1
               else [ProgressFinish
                       (formatCompletionMessage lib execContext description 1 duration)])
         end
       else caught (match resp_text response with
                    | inl t => t
                    | inr errorText => api_error (resp_status response) errorText
                    end) duration 0
     end.

(** The events of one invocation of [runClaudePrompt] that starts at the
    clock reading number [start] with a key in the environment;
    [runClaudePrompt_trace] below proves that these are the events. *)
Definition pipeline_events (prompt sourceDir : string)
  (context description auditSession : option string) (start : nat) : list Event :=
  let description := default "Claude analysis" description in
  let fullPrompt := compose_prompt (default EmptyString context) prompt in
  let execContext := detectExecutionContext lib description in
  let timer := mkTimer ("agent-" +:+ replace_spaces false (toLowerCase description))
                       (clock w start) in
  [LogInfo ("Running Claude Code: " +:+ description +:+ "...")]
  ++ (if useCleanOutput execContext then []
      else [LogInfo ("OpenAI Options: model=" +:+ opt_model (client_options lib w)
                       +:+ ", cwd=" +:+ sourceDir)])
  ++ [ProgressStart]
  ++ body_events fullPrompt description sourceDir execContext auditSession timer
                 (S start).

End Footprints.

(** ** Sample worlds

    Concrete states, worlds and collaborators on which the statements
    below are exercised. *)

Definition state0 : State := mkState [] 0 (mkLocals 0 None false 0%Qc).

(** A classifier that takes [TypeError]s (what [fetch] rejects with when
    the network is down) and HTTP 429 messages for transient. *)
Definition sample_isRetryableError (t : Thrown) : bool :=
  match t with
  | ThrowError (PlainError o) =>
    bool_decide (eo_ctor o = "TypeError")
    || bool_decide (eo_message o = "OpenAI API error (429): slow down")
  | _ => false
  end.

Definition enoent : Thrown :=
  ThrowError (PlainError (mkErrorObject "Error" "ENOENT: no such file or directory"
                                        (Some "ENOENT") None)).

Definition pong : Completion :=
  mkCompletion (Some "gpt-4.1-2025-04-14")
               (Some [Some (mkChoice (Some (mkMessage (Some "pong"))))]).

Definition http_ok (completion : Completion) : Response :=
  mkResponse true 200 (inr "{}") (inr completion).

Definition http_error (status : Z) (body : string) : Response :=
  mkResponse false status (inr body)
             (inl (ThrowError (PlainError
                (mkErrorObject "SyntaxError" "Unexpected token" None None)))).

Definition with_key : gmap string string := {[ "OPENAI_API_KEY" := "sk-test" ]}.

Definition seconds (n : nat) : Z := Z.of_nat n * 1000.

(** A git repository, a valid configuration, a key the endpoint accepts. *)
Definition world_ready : World :=
  mkWorld (λ _, inr (mkStats true)) (λ _, None) with_key
          (λ _, inr (http_ok pong)) (λ _ _, None) seconds None.

(** Nothing at the repository path. *)
Definition world_no_repo : World :=
  mkWorld (λ _, inl enoent) (λ _, None) with_key
          (λ _, inr (http_ok pong)) (λ _ _, None) seconds None.

(** A directory without [.git]. *)
Definition world_no_git : World :=
  mkWorld (λ path, if bool_decide (path = "/repo") then inr (mkStats true) else inl enoent)
          (λ _, None) with_key
          (λ _, inr (http_ok pong)) (λ _ _, None) seconds None.

(** The configuration parser throws a plain [Error]. *)
Definition world_bad_config : World :=
  mkWorld (λ _, inr (mkStats true))
          (λ _, Some (ThrowError (new_Error "rules.avoid[0].type is invalid")))
          with_key
          (λ _, inr (http_ok pong)) (λ _ _, None) seconds None.

Definition typed_config_error : PentestError :=
  mkPentestError "Config file not found" "filesystem" false
                 {[ "configPath" := "shannon.yaml" ]} (Some (OTHER_CODE "CONFIG_NOT_FOUND")).

(** The configuration parser throws an error it classified itself. *)
Definition world_typed_config_error : World :=
  mkWorld (λ _, inr (mkStats true))
          (λ _, Some (ThrowError (Pentest typed_config_error)))
          with_key
          (λ _, inr (http_ok pong)) (λ _ _, None) seconds None.

(** No [OPENAI_API_KEY]. *)
Definition world_no_key : World :=
  mkWorld (λ _, inr (mkStats true)) (λ _, None) ∅
          (λ _, inr (http_ok pong)) (λ _ _, None) seconds None.

(** The endpoint answers 401. *)
Definition world_rejected_key : World :=
  mkWorld (λ _, inr (mkStats true)) (λ _, None) with_key
          (λ _, inr (http_error 401 "invalid_api_key")) (λ _ _, None) seconds None.

(** The endpoint answers 429. *)
Definition world_rate_limited : World :=
  mkWorld (λ _, inr (mkStats true)) (λ _, None) with_key
          (λ _, inr (http_error 429 "slow down")) (λ _ _, None) seconds None.


(** OPENAI_MODEL is set and the completion names no model. *)
Definition world_model_override : World :=
  mkWorld (λ _, inr (mkStats true)) (λ _, None)
          (<[ "OPENAI_MODEL" := "gpt-4o" ]> with_key)
          (λ _, inr (http_ok (mkCompletion None
             (Some [Some (mkChoice (Some (mkMessage (Some "pong"))))]))))
          (λ _ _, None) seconds None.

(** A prompt of 120 characters. *)
Definition long_prompt : string :=
  "0123456789012345678901234567890123456789012345678901234567890123456789012345678901234567890123456789ABCDEFGHIJKLMNOPQRST".

(** The degenerate text of the sample collaborators. *)
Definition placeholder : string := "(no content)".

(** The endpoint answers 200 with the degenerate text. *)
Definition world_capped : World :=
  mkWorld (λ _, inr (mkStats true)) (λ _, None) with_key
          (λ _, inr (http_ok (mkCompletion None
             (Some [Some (mkChoice (Some (mkMessage (Some placeholder))))]))))
          (λ _ _, None) seconds None.

(** The loader is disabled and the clock jumps 40 seconds between any two
    readings. *)
Definition world_jumpy_clock : World :=
  mkWorld (λ _, inr (mkStats true)) (λ _, None) with_key
          (λ _, inr (http_ok pong)) (λ _ _, None)
          (λ n, Z.of_nat n * 40000) (Some true).

Definition sample_lib : Collaborators :=
  mkCollaborators sample_isRetryableError
                  (λ text, bool_decide (text = placeholder))
                  (λ _, mkExecutionContext false)
                  (λ error _ description _ _ _, [description +:+ " failed"])
                  (λ _ description _ _, description +:+ " completed")
                  (λ now, "t+" +:+ string_of_Z now +:+ "ms")
                  {[ "recon" := λ _ : string, mret true : Exec bool ]}
                  (λ entry, log_timestamp entry +:+ " " +:+ log_prompt entry)
                  (λ dir file, dir +:+ "/" +:+ file)
                  (λ _, Some 64000)
                  (λ member,
                     match member with
                     | OP___proto__ => "validator is not a function"
                     | _ => "Cannot convert undefined or null to object"
                     end).

Definition sample_result (text : option string) : ClaudePromptResult :=
  mkClaudePromptResult text true 1200 (Some 1) 0%Qc (Some "gpt-4.1") (Some 0%Qc)
                       (Some false) None None None None.

(** The name of the timer of an execution described as
    "Claude  analysis run". *)
Example timer_name_sample :
  "agent-" +:+ replace_spaces false (toLowerCase "Claude  analysis run")
  = "agent-claude-analysis-run".
Proof. reflexivity. Qed.

(** ** Reasoning about computations *)

Ltac run_exec :=
  cbv beta iota zeta delta
    [mbind mret Exec_bind Exec_ret try_catch throw await emit
     logger_info logger_warn logger_error fs_stat do_parseConfig do_fetch
     get_locals set_locals negb] in *;
  cbn [trace ticks locals] in *.

Lemma trace_since_app (s s' : State) (events : list Event) :
  trace s' = trace s ++ events → trace_since s s' = events.
Proof.
  intros E. unfold trace_since. rewrite E. apply drop_app_length.
Qed.

(** ** Properties of the preflight gate *)

Section PreflightProperties.

Context (isRetryableError : Thrown → bool).
Context (w : World).

(** The repository check touches nothing but the logger and [fs.stat]. *)
Lemma validateRepo_effects (repoPath : string) (s : State) :
  ∃ out s' events,
    validateRepo w repoPath s = (inr out, s')
    ∧ s' = mkState (trace s ++ events) (ticks s) (locals s)
    ∧ filter is_parse events = [] ∧ filter is_fetch events = [].
Proof.
  unfold validateRepo. run_exec.
  destruct (stat w repoPath) as [t|st].
  - eexists _, _, [_; _]. rewrite <- !app_assoc. done.
  - destruct (isDirectory st); run_exec.
    + destruct (stat w (repoPath +:+ "/.git")) as [t|gst].
      * eexists _, _, [_; _; _]. rewrite <- !app_assoc. done.
      * destruct (isDirectory gst); run_exec.
        -- eexists _, _, [_; _; _; _]. rewrite <- !app_assoc. done.
        -- eexists _, _, [_; _; _]. rewrite <- !app_assoc. done.
    + eexists _, _, [_; _]. rewrite <- !app_assoc. done.
Qed.

(** The configuration check touches nothing but the logger and the
    parser. *)
Lemma validateConfig_effects (configPath : string) (s : State) :
  ∃ out s' events,
    validateConfig w configPath s = (inr out, s')
    ∧ s' = mkState (trace s ++ events) (ticks s) (locals s)
    ∧ filter is_fetch events = [].
Proof.
  unfold validateConfig. run_exec.
  destruct (parseConfig w configPath) as [[[o|p]|c r]|].
  all: try (eexists _, _, [_; _]; rewrite <- !app_assoc; done).
  eexists _, _, [_; _; _]. rewrite <- !app_assoc. done.
Qed.

(** C4. Whenever the repository path cannot be statted or is not a
    directory, or its [.git] entry cannot be statted or is not a directory,
    the repository check returns a failure of category config, not
    retryable, with code REPO_NOT_FOUND. *)
Theorem validateRepo_not_found (repoPath : string) (s : State) :
  (∃ t, stat w repoPath = inl t)
  ∨ (∃ st, stat w repoPath = inr st ∧ isDirectory st = false)
  ∨ (∃ t, stat w (repoPath +:+ "/.git") = inl t)
  ∨ (∃ st, stat w (repoPath +:+ "/.git") = inr st ∧ isDirectory st = false) →
  ∃ e s', validateRepo w repoPath s = (inr (err e), s')
          ∧ pe_category e = "config" ∧ pe_retryable e = false
          ∧ pe_code e = Some REPO_NOT_FOUND.
Proof.
  intros H. unfold validateRepo. run_exec.
  destruct (stat w repoPath) as [t|st] eqn:E1.
  { eexists _, _. split; [reflexivity|]. done. }
  destruct (isDirectory st) eqn:D1; run_exec.
  2: { eexists _, _. split; [reflexivity|]. done. }
  destruct (stat w (repoPath +:+ "/.git")) as [t|gst] eqn:E2.
  { eexists _, _. split; [reflexivity|]. done. }
  destruct (isDirectory gst) eqn:D2; run_exec.
  2: { eexists _, _. split; [reflexivity|]. done. }
  exfalso.
  destruct H as [[t ?]|[(st' & ? & ?)|[[t ?]|(st' & ? & ?)]]]; congruence.
Qed.

(** The repository check passes exactly on a directory holding a [.git]
    directory. *)
Lemma validateRepo_ok (repoPath : string) (s : State) :
  stat w repoPath = inr (mkStats true) →
  stat w (repoPath +:+ "/.git") = inr (mkStats true) →
  ∃ s', validateRepo w repoPath s = (inr (ok tt), s').
Proof.
  intros E1 E2. unfold validateRepo. run_exec.
  rewrite E1. run_exec. rewrite E2. run_exec. eauto.
Qed.

(** C6. Without an OPENAI_API_KEY in the environment (or with an empty
    one) the credential check returns at once a failure of category config,
    not retryable, with code AUTH_FAILED; the state is left as it was, so no
    request was issued. *)
Theorem validateCredentials_missing_key (s : State) :
  env w !! "OPENAI_API_KEY" = None
  ∨ env w !! "OPENAI_API_KEY" = Some EmptyString →
  ∃ e, validateCredentials isRetryableError w s = (inr (err e), s)
       ∧ pe_category e = "config" ∧ pe_retryable e = false
       ∧ pe_code e = Some AUTH_FAILED
       ∧ filter is_fetch (trace_since s s) = [].
Proof.
  intros H. unfold validateCredentials.
  assert (truthy (env w !! "OPENAI_API_KEY") = None) as ->
    by (destruct H as [-> | ->]; reflexivity).
  eexists. split; [reflexivity|].
  rewrite (trace_since_app s s []) by (by rewrite app_nil_r). done.
Qed.

(** C7. Whatever the configuration parser throws comes back as a failure
    of category config, not retryable, with code CONFIG_VALIDATION_FAILED,
    except a PentestError, which comes back as it is. *)
Theorem validateConfig_wraps (configPath : string) (t : Thrown) (s : State) :
  parseConfig w configPath = Some t →
  ∃ e s', validateConfig w configPath s = (inr (err e), s')
          ∧ match t with
            | ThrowError (Pentest typed) => e = typed
            | _ => pe_message e = "Configuration validation failed: " +:+ message_of t
                   ∧ pe_category e = "config" ∧ pe_retryable e = false
                   ∧ pe_code e = Some CONFIG_VALIDATION_FAILED
            end.
Proof.
  intros E. unfold validateConfig. run_exec. rewrite E.
  destruct t as [[o|p]|c r]; eexists _, _; (split; [reflexivity|]); done.
Qed.


(** The credential check passes exactly when the request does not fail. *)
Lemma validateCredentials_ok (key : string) (s : State) :
  truthy (env w !! "OPENAI_API_KEY") = Some key →
  request_failure (fetch w (credential_request w key)) = None →
  ∃ s', validateCredentials isRetryableError w s = (inr (ok tt), s').
Proof.
  intros K F. unfold validateCredentials. rewrite K. run_exec.
  unfold request_failure in F.
  destruct (fetch w (credential_request w key)) as [t|response]; [discriminate|].
  destruct (resp_ok response); [|discriminate]. run_exec. eauto.
Qed.

(** C3. The gate returns the failure of the first failing check and runs
    no later check. When the repository check fails, the gate returns that
    failure in the very state the repository check left, in which neither
    the configuration parser nor the endpoint has been called; when the
    configuration check fails, it returns that failure in the state the
    configuration check left, in which the endpoint has not been called;
    when only the credential check fails, it returns that failure. *)
Theorem runPreflightChecks_first_failure
  (repoPath : string) (configPath : option string) (s : State) :
  (∀ e s1,
     validateRepo w repoPath s = (inr (err e), s1) →
     runPreflightChecks isRetryableError w repoPath configPath s = (inr (err e), s1)
     ∧ filter is_parse (trace_since s s1) = []
     ∧ filter is_fetch (trace_since s s1) = [])
  ∧ (∀ s1 path e s2,
       validateRepo w repoPath s = (inr (ok tt), s1) →
       truthy configPath = Some path →
       validateConfig w path s1 = (inr (err e), s2) →
       runPreflightChecks isRetryableError w repoPath configPath s = (inr (err e), s2)
       ∧ filter is_fetch (trace_since s s2) = [])
  ∧ (∀ s1 s2 e s3,
       validateRepo w repoPath s = (inr (ok tt), s1) →
       (truthy configPath = None ∧ s2 = s1
        ∨ ∃ path, truthy configPath = Some path
                  ∧ validateConfig w path s1 = (inr (ok tt), s2)) →
       validateCredentials isRetryableError w s2 = (inr (err e), s3) →
       runPreflightChecks isRetryableError w repoPath configPath s = (inr (err e), s3)).
Proof.
  split; [|split].
  - intros e s1 R.
    destruct (validateRepo_effects repoPath s) as (out & s' & events & R' & S & P & F).
    rewrite R in R'. injection R' as <- <-.
    split.
    + unfold runPreflightChecks. run_exec. rewrite R. reflexivity.
    + rewrite (trace_since_app s s1 events) by (subst s1; reflexivity). done.
  - intros s1 path e s2 R T C.
    destruct (validateRepo_effects repoPath s) as (out & s' & events & R' & S & P & F).
    rewrite R in R'. injection R' as <- <-.
    destruct (validateConfig_effects path s1) as (out & s' & events' & C' & S' & F').
    rewrite C in C'. injection C' as <- <-.
    split.
    + unfold runPreflightChecks. run_exec. rewrite R. cbv beta iota zeta delta [is_ok].
      rewrite T. run_exec. rewrite C. reflexivity.
    + rewrite (trace_since_app s s2 (events ++ events')).
      * rewrite filter_app, F, F'. reflexivity.
      * subst s2 s1. cbn. by rewrite app_assoc.
  - intros s1 s2 e s3 R T V.
    unfold runPreflightChecks. run_exec. rewrite R. cbv beta iota zeta delta [is_ok].
    destruct T as [[T ->]|(path & T & C)]; rewrite T; run_exec.
    + rewrite V. reflexivity.
    + rewrite C. cbv beta iota zeta delta [is_ok]. rewrite V. reflexivity.
Qed.

(** When every check passes, so does the gate. *)
Lemma runPreflightChecks_ok (repoPath : string) (configPath : option string)
  (s s1 s2 s3 : State) :
  validateRepo w repoPath s = (inr (ok tt), s1) →
  (truthy configPath = None ∧ s2 = s1
   ∨ ∃ path, truthy configPath = Some path
             ∧ validateConfig w path s1 = (inr (ok tt), s2)) →
  validateCredentials isRetryableError w s2 = (inr (ok tt), s3) →
  ∃ s4, runPreflightChecks isRetryableError w repoPath configPath s = (inr (ok tt), s4).
Proof.
  intros R T V.
  unfold runPreflightChecks. run_exec. rewrite R. cbv beta iota zeta delta [is_ok].
  destruct T as [[T ->]|(path & T & C)]; rewrite T; run_exec.
  - rewrite V. eauto.
  - rewrite C. cbv beta iota zeta delta [is_ok]. rewrite V. eauto.
Qed.

End PreflightProperties.

(** *** The gate on the sample worlds *)

Lemma validateRepo_not_found_witness :
  ∃ e s', validateRepo world_no_git "/repo" state0 = (inr (err e), s')
          ∧ pe_category e = "config" ∧ pe_retryable e = false
          ∧ pe_code e = Some REPO_NOT_FOUND.
Proof.
  apply (validateRepo_not_found world_no_git "/repo" state0).
  right; right; left. exists enoent. vm_compute. reflexivity.
Defined.

Lemma validateCredentials_missing_key_witness :
  ∃ e, validateCredentials sample_isRetryableError world_no_key state0
       = (inr (err e), state0)
       ∧ pe_category e = "config" ∧ pe_retryable e = false
       ∧ pe_code e = Some AUTH_FAILED
       ∧ filter is_fetch (trace_since state0 state0) = [].
Proof.
  apply (validateCredentials_missing_key sample_isRetryableError world_no_key state0).
  left. vm_compute. reflexivity.
Defined.

Lemma validateConfig_wraps_witness :
  (∃ e s', validateConfig world_bad_config "shannon.yaml" state0 = (inr (err e), s')
           ∧ pe_message e
             = "Configuration validation failed: rules.avoid[0].type is invalid"
           ∧ pe_category e = "config" ∧ pe_retryable e = false
           ∧ pe_code e = Some CONFIG_VALIDATION_FAILED)
  ∧ (∃ e s', validateConfig world_typed_config_error "shannon.yaml" state0
             = (inr (err e), s')
             ∧ e = typed_config_error).
Proof.
  split.
  - apply (validateConfig_wraps world_bad_config "shannon.yaml"
             (ThrowError (new_Error "rules.avoid[0].type is invalid")) state0).
    vm_compute. reflexivity.
  - apply (validateConfig_wraps world_typed_config_error "shannon.yaml"
             (ThrowError (Pentest typed_config_error)) state0).
    vm_compute. reflexivity.
Defined.


Lemma runPreflightChecks_first_failure_witness :
  (∃ e s1,
     runPreflightChecks sample_isRetryableError world_no_repo "/repo"
                        (Some "shannon.yaml") state0 = (inr (err e), s1)
     ∧ pe_code e = Some REPO_NOT_FOUND
     ∧ filter is_parse (trace_since state0 s1) = []
     ∧ filter is_fetch (trace_since state0 s1) = [])
  ∧ (∃ e s2,
       runPreflightChecks sample_isRetryableError world_bad_config "/repo"
                          (Some "shannon.yaml") state0 = (inr (err e), s2)
       ∧ pe_code e = Some CONFIG_VALIDATION_FAILED
       ∧ filter is_fetch (trace_since state0 s2) = [])
  ∧ (∃ e s3,
       runPreflightChecks sample_isRetryableError world_no_key "/repo"
                          None state0 = (inr (err e), s3)
       ∧ pe_code e = Some AUTH_FAILED
       ∧ filter is_fetch (trace_since state0 s3) = []).
Proof.
  split; [|split].
  - destruct (validateRepo world_no_repo "/repo" state0) as [[t|[u|e]] s1] eqn:R;
      try (vm_compute in R; discriminate R).
    exists e, s1.
    destruct (proj1 (runPreflightChecks_first_failure sample_isRetryableError
                       world_no_repo "/repo" (Some "shannon.yaml") state0) e s1 R)
      as (G & P & F).
    repeat split; try assumption.
    vm_compute in R. injection R as <- <-. reflexivity.
  - destruct (validateRepo world_bad_config "/repo" state0) as [[t|[[]|e]] s1] eqn:R;
      try (vm_compute in R; discriminate R).
    destruct (validateConfig world_bad_config "shannon.yaml" s1) as [[t|[u|e]] s2] eqn:C;
      try (vm_compute in R; injection R as <-; vm_compute in C; discriminate C).
    exists e, s2.
    destruct (proj1 (proj2 (runPreflightChecks_first_failure sample_isRetryableError
                       world_bad_config "/repo" (Some "shannon.yaml") state0))
                s1 "shannon.yaml" e s2 R eq_refl C) as (G & F).
    repeat split; try assumption.
    vm_compute in R. injection R as <-. vm_compute in C. injection C as <- <-.
    reflexivity.
  - destruct (validateRepo world_no_key "/repo" state0) as [[t|[[]|e]] s1] eqn:R;
      try (vm_compute in R; discriminate R).
    destruct (validateCredentials sample_isRetryableError world_no_key s1)
      as [[t|[u|e]] s3] eqn:V;
      try (vm_compute in R; injection R as <-; vm_compute in V; discriminate V).
    exists e, s3.
    pose proof (proj2 (proj2 (runPreflightChecks_first_failure sample_isRetryableError
                       world_no_key "/repo" None state0))
                s1 s1 e s3 R (or_introl (conj eq_refl eq_refl)) V) as G.
    vm_compute in R. injection R as <-. vm_compute in V. injection V as <- <-.
    repeat split; try assumption; reflexivity.
Defined.

(** ** Properties of the executor *)

Ltac run_executor :=
  cbv beta iota zeta delta
    [mbind mret Exec_bind Exec_ret try_catch throw await emit
     logger_info logger_warn logger_error fs_stat do_parseConfig do_fetch
     get_locals set_locals negb
     Date_now new_Timer timer_stop progress_start progress_finish progress_stop
     auditLogger_logLlmResponse auditLogger_logError fs_appendFile] in *;
  cbn [trace ticks locals
       mlr_turnCount mlr_result mlr_apiErrorDetected mlr_cost mlr_model
       turnCount result apiErrorDetected totalCost
       deps_description deps_auditLogger deps_execContext] in *.

Lemma or_default_Some (text : string) : or_default (Some text) EmptyString = text.
Proof. by destruct text. Qed.

Lemma filter_fetch_console (lines : list string) :
  filter is_fetch (map ConsoleLog lines) = [].
Proof. induction lines as [|line rest IH]; [reflexivity|exact IH]. Qed.

Lemma outputLines_run (lines : list string) (s : State) :
  outputLines lines s
  = (inr tt, mkState (trace s ++ map ConsoleLog lines) (ticks s) (locals s)).
Proof.
  revert s. induction lines as [|line rest IH]; intros s.
  - cbn. rewrite app_nil_r. by destruct s.
  - cbn [outputLines map]. run_executor. rewrite IH. cbn. by rewrite <- app_assoc.
Qed.

Section ExecutorProperties.

Context (lib : Collaborators).
Context (w : World).

(** One run of [processMessageStream], spelled out: two readings of the
    clock, the heartbeat line if it is due, the request, and then what the
    response decides. *)
Lemma processMessageStream_run (fullPrompt : string) (options : Options)
  (deps : MessageLoopDeps) (timer : Timer) (s : State) :
  let now := clock w (S (ticks s)) in
  let heartbeat :=
    if bool_decide (SHANNON_DISABLE_LOADER w = Some true)
       && bool_decide (now - clock w (ticks s) > HEARTBEAT_INTERVAL)
    then [LogInfo (heartbeat_line now timer (deps_description deps))] else [] in
  let req := completion_request w fullPrompt options in
  let sent := mkState (trace s ++ heartbeat ++ [Fetch req]) (S (S (ticks s))) (locals s) in
  processMessageStream w fullPrompt options deps timer s =
  match fetch w req with
  | inl t => (inl t, sent)
  | inr response =>
    if resp_ok response then
      match resp_json response with
      | inl t => (inl t, sent)
      | inr completion =>
        let text := nullish (first_content completion) EmptyString in
        (inr (mkMessageLoopResult 1 (Some text) false 0%Qc
                (Some (or_default (cmp_model completion) (opt_model options)))),
         mkState (trace sent ++ match deps_auditLogger deps with
                                | Some session => [AuditLlmResponse session 1 text]
                                | None => []
                                end) (ticks sent) (locals sent))
      end
    else
      (inl (match resp_text response with
            | inl t => t
            | inr errorText => api_error (resp_status response) errorText
            end), sent)
  end.
Proof.
  intros now heartbeat req sent. subst now heartbeat sent.
  unfold processMessageStream. run_executor.
  destruct (bool_decide (SHANNON_DISABLE_LOADER w = Some true)
            && bool_decide (clock w (S (ticks s)) - clock w (ticks s) > HEARTBEAT_INTERVAL));
    run_executor; fold req; rewrite <- ?app_assoc; cbn [app];
    (destruct (fetch w req) as [t|response]; [reflexivity|]);
    (destruct (resp_ok response); run_executor;
     [destruct (resp_json response) as [t|completion]; [reflexivity|];
      destruct (deps_auditLogger deps); run_executor; rewrite ?app_nil_r; reflexivity
     |destruct (resp_text response); reflexivity]).
Qed.

(** The error log is best effort: [writeErrorLog] resolves whatever
    [fs.appendFile] does. *)
Lemma writeErrorLog_run (error : Thrown) (sourceDir fullPrompt : string)
  (duration : Z) (s : State) :
  ∃ path data,
    writeErrorLog lib w error sourceDir fullPrompt duration s
    = (inr tt, mkState (trace s ++ [FsAppendFile path data]) (S (ticks s)) (locals s)).
Proof.
  unfold writeErrorLog, do_formatTimestamp. run_executor.
  eexists _, _. destruct (appendFile w _ _); reflexivity.
Qed.

(** The [catch] block always returns its failure result, after two more
    readings of the clock (the duration and the timestamp of the log entry)
    and without any request. *)
Lemma runClaudePrompt_catch_run (fullPrompt description sourceDir : string)
  (execContext : ExecutionContext) (auditLogger : option string)
  (timer : Timer) (error : Thrown) (s : State) :
  ∃ events,
    runClaudePrompt_catch lib w fullPrompt description sourceDir execContext
                          auditLogger timer error s
    = (inr (failure_result lib fullPrompt (clock w (ticks s) - startTime timer)
                           (totalCost (locals s)) error),
       mkState (trace s ++ events) (S (S (ticks s))) (locals s))
    ∧ filter is_fetch events = [].
Proof.
  unfold runClaudePrompt_catch. run_executor.
  destruct auditLogger as [session|]; run_executor; rewrite outputLines_run;
    cbn [trace ticks locals];
    match goal with |- context [writeErrorLog ?l ?w0 ?e ?d ?p ?n ?s0] =>
      destruct (writeErrorLog_run e d p n s0) as (path & data & ->) end;
    cbn [trace ticks locals]; rewrite <- !app_assoc;
    eexists; (split; [reflexivity|]);
    rewrite ?filter_app, filter_fetch_console; reflexivity.
Qed.

(** The [try] and [catch] blocks together, entered in a state [entry]
    whose locals are the initial ones: the result is [pipeline_result], and
    exactly one request is issued. *)
Lemma runClaudePrompt_body_run (fullPrompt description sourceDir : string)
  (execContext : ExecutionContext) (auditSession : option string)
  (timer : Timer) (entry : State) :
  locals entry = mkLocals 0 None false 0%Qc →
  ∃ s' events,
    try_catch
      (runClaudePrompt_try lib w fullPrompt description (client_options lib w)
                           execContext auditSession timer)
      (runClaudePrompt_catch lib w fullPrompt description sourceDir
                             execContext auditSession timer) entry
    = (inr (pipeline_result lib w fullPrompt
              (clock w (S (S (ticks entry))) - startTime timer)), s')
    ∧ trace s' = trace entry ++ events
    ∧ filter is_fetch events
      = [Fetch (completion_request w fullPrompt (client_options lib w))].
Proof.
  intros L.
  set (req := completion_request w fullPrompt (client_options lib w)).
  unfold try_catch, runClaudePrompt_try, pipeline_result.
  cbv beta iota zeta delta [mbind Exec_bind].
  rewrite processMessageStream_run. fold req.
  cbn [deps_description deps_auditLogger trace ticks locals]. rewrite L.
  set (heartbeat := if _ && _ then _ else _).
  assert (filter is_fetch heartbeat = []) as Hhb
    by (subst heartbeat; destruct (_ && _); reflexivity).
  assert (∀ error audit l,
    filter is_fetch audit = [] →
    ∃ s' events,
      runClaudePrompt_catch lib w fullPrompt description sourceDir execContext
        auditSession timer error
        (mkState ((trace entry ++ heartbeat ++ [Fetch req]) ++ audit)
                 (S (S (ticks entry))) l)
      = (inr (failure_result lib fullPrompt
                (clock w (S (S (ticks entry))) - startTime timer) (totalCost l) error), s')
      ∧ trace s' = trace entry ++ events
      ∧ filter is_fetch events = [Fetch req]) as Caught.
  { intros error audit l Haud.
    destruct (runClaudePrompt_catch_run fullPrompt description sourceDir execContext
                auditSession timer error
                (mkState ((trace entry ++ heartbeat ++ [Fetch req]) ++ audit)
                         (S (S (ticks entry))) l)) as (events & -> & Hev).
    eexists _, (heartbeat ++ [Fetch req] ++ audit ++ events).
    split; [reflexivity|]. split; [cbn; by rewrite <- !app_assoc|].
    rewrite !filter_app, Hhb, Hev, Haud. reflexivity. }
  destruct (fetch w req) as [t|response].
  { specialize (Caught t [] (mkLocals 0 None false 0%Qc) eq_refl). rewrite app_nil_r in Caught. exact Caught. }
  destruct (resp_ok response).
  2: { specialize (Caught (match resp_text response with
                           | inl t => t
                           | inr errorText => api_error (resp_status response) errorText
                           end) [] (mkLocals 0 None false 0%Qc) eq_refl).
       rewrite app_nil_r in Caught. exact Caught. }
  destruct (resp_json response) as [t|completion].
  { specialize (Caught t [] (mkLocals 0 None false 0%Qc) eq_refl). rewrite app_nil_r in Caught. exact Caught. }
  run_executor.
  set (text := nullish (first_content completion) EmptyString).
  set (audit := match auditSession with Some _ => _ | None => _ end).
  assert (filter is_fetch audit = []) as Haud
    by (subst audit; destruct auditSession; reflexivity).
  destruct (isSpendingCapBehavior lib 1 0%Qc (or_default (Some text) EmptyString)).
  { exact (Caught _ audit (mkLocals 1 (Some text) false 0%Qc) Haud). }
  run_executor.
  eexists _, (heartbeat ++ [Fetch req] ++ audit ++ [ProgressFinish _]).
  split; [reflexivity|]. split; [cbn; by rewrite <- !app_assoc|].
  rewrite !filter_app, Hhb, Haud. reflexivity.
Qed.

(** With a key in the environment, [runClaudePrompt] returns
    [pipeline_result] and issues exactly one request. *)
Lemma runClaudePrompt_run (prompt sourceDir : string)
  (context description agentName auditSession : option string)
  (key : string) (s : State) :
  truthy (env w !! "OPENAI_API_KEY") = Some key →
  let fullPrompt := compose_prompt (default EmptyString context) prompt in
  ∃ s',
    runClaudePrompt lib w prompt sourceDir context description agentName auditSession s
    = (inr (pipeline_result lib w fullPrompt
              (clock w (S (S (S (ticks s)))) - clock w (ticks s))), s')
    ∧ filter is_fetch (trace_since s s')
      = [Fetch (completion_request w fullPrompt (client_options lib w))].
Proof.
  intros K fullPrompt.
  unfold runClaudePrompt. rewrite K. run_executor. fold fullPrompt.
  set (description' := default "Claude analysis" description).
  set (execContext := detectExecutionContext lib description').
  set (timer := mkTimer _ _).
  destruct (useCleanOutput execContext); run_executor;
    match goal with |- context [runClaudePrompt_try _ _ _ _ _ _ _ _ ?entry] =>
      destruct (runClaudePrompt_body_run fullPrompt description' sourceDir execContext
                  auditSession timer entry eq_refl) as (s' & events & E & T & F);
      unfold try_catch in E; rewrite E;
      exists s'; split; [reflexivity|];
      cbn [trace] in T; rewrite <- !app_assoc in T;
      rewrite (trace_since_app s s' _ T); rewrite !filter_app, F; reflexivity
    end.
Qed.

(** Without a key, [runClaudePrompt] rejects before the [try] block is
    entered: one clock reading, one log line, nothing else. *)
Lemma runClaudePrompt_no_key (prompt sourceDir : string)
  (context description agentName auditSession : option string) (s : State) :
  truthy (env w !! "OPENAI_API_KEY") = None →
  runClaudePrompt lib w prompt sourceDir context description agentName auditSession s
  = (inl (ThrowError (Pentest missing_key_error)),
     mkState (trace s ++ [LogInfo ("Running Claude Code: "
                            +:+ default "Claude analysis" description +:+ "...")])
             (S (ticks s)) (locals s)).
Proof.
  intros K. unfold runClaudePrompt. rewrite K. run_executor. reflexivity.
Qed.

(** C1, as the code has it. With a credential in the environment every
    failure of the pipeline (a rejected request, a non-success response, an
    unreadable body, the spending-cap error) is caught by the one
    [try]/[catch] of the invocation and comes back as a structured failure
    result; the invocation does not reject. The missing-credential check
    stands before that [try]: without a credential the invocation rejects
    with a config, non-retryable PentestError, and no request is issued. *)
Theorem runClaudePrompt_failure_boundary (prompt sourceDir : string)
  (context description agentName auditSession : option string) (s : State) :
  let fullPrompt := compose_prompt (default EmptyString context) prompt in
  let req := completion_request w fullPrompt (client_options lib w) in
  (∀ key,
     truthy (env w !! "OPENAI_API_KEY") = Some key →
     ∃ r s',
       runClaudePrompt lib w prompt sourceDir context description agentName auditSession s
       = (inr r, s')
       ∧ (∀ t, request_failure (fetch w req) = Some t → failed_with lib r t)
       ∧ (∀ response t,
            fetch w req = inr response → resp_ok response = true →
            resp_json response = inl t → failed_with lib r t)
       ∧ (∀ response completion,
            fetch w req = inr response → resp_ok response = true →
            resp_json response = inr completion →
            isSpendingCapBehavior lib 1 0%Qc (nullish (first_content completion) EmptyString)
            = true →
            r_success r = false ∧ r_errorType r = Some "PentestError"))
  ∧ (truthy (env w !! "OPENAI_API_KEY") = None →
     ∃ s',
       runClaudePrompt lib w prompt sourceDir context description agentName auditSession s
       = (inl (ThrowError (Pentest missing_key_error)), s')
       ∧ pe_category missing_key_error = "config"
       ∧ pe_retryable missing_key_error = false
       ∧ filter is_fetch (trace_since s s') = []).
Proof.
  intros fullPrompt req. split.
  - intros key K.
    destruct (runClaudePrompt_run prompt sourceDir context description agentName
                auditSession key s K) as (s' & E & _).
    eexists _, s'. split; [exact E|].
    fold fullPrompt. unfold pipeline_result. fold req.
    split; [|split].
    + intros t F. unfold request_failure in F.
      destruct (fetch w req) as [t'|response].
      * injection F as <-. by repeat split.
      * destruct (resp_ok response); [discriminate|].
        injection F as <-. by repeat split.
    + intros response t -> -> ->. by repeat split.
    + intros response completion -> -> -> C.
      rewrite or_default_Some, C. by split.
  - intros K. eexists. split; [by apply runClaudePrompt_no_key|].
    split; [reflexivity|]. split; [reflexivity|].
    rewrite (trace_since_app s _ [LogInfo ("Running Claude Code: "
               +:+ default "Claude analysis" description +:+ "...")]) by reflexivity.
    reflexivity.
Qed.

(** C2. [isSpendingCapBehavior] holds exactly when turnCount > 0, cost is 0
    and the text matches the degenerate pattern, hence never when
    cost > 0; and whenever it holds of the values [processMessageStream]
    returned, the [try] block of [runClaudePrompt] throws a PentestError
    of category billing that is retryable, so that a completion answered
    200 with a degenerate text does not yield a success result. *)
Theorem isSpendingCapBehavior_triggers :
  (∀ turns cost text,
     isSpendingCapBehavior lib turns cost text = true
     ↔ 0 < turns ∧ cost = 0%Qc ∧ matchesDegeneratePattern lib text = true)
  ∧ (∀ turns cost text,
       (0 < cost)%Qc → isSpendingCapBehavior lib turns cost text = false)
  ∧ (∀ fullPrompt description options execContext auditLogger timer s m s1,
       processMessageStream w fullPrompt options
         (mkMessageLoopDeps execContext description auditLogger) timer s = (inr m, s1) →
       isSpendingCapBehavior lib (mlr_turnCount m) (mlr_cost m)
                             (or_default (mlr_result m) EmptyString) = true →
       ∃ e s2,
         runClaudePrompt_try lib w fullPrompt description options execContext
                             auditLogger timer s
         = (inl (ThrowError (Pentest e)), s2)
         ∧ pe_category e = "billing" ∧ pe_retryable e = true)
  ∧ (∀ prompt sourceDir context description agentName auditSession key
       response completion s,
       truthy (env w !! "OPENAI_API_KEY") = Some key →
       fetch w (completion_request w
                  (compose_prompt (default EmptyString context) prompt)
                  (client_options lib w)) = inr response →
       resp_ok response = true →
       resp_json response = inr completion →
       matchesDegeneratePattern lib (nullish (first_content completion) EmptyString)
       = true →
       ∃ r s',
         runClaudePrompt lib w prompt sourceDir context description agentName
                         auditSession s = (inr r, s')
         ∧ r_success r = false
         ∧ r_errorType r = Some "PentestError"
         ∧ r_retryable r
           = Some (isRetryableError lib (ThrowError (Pentest (spending_cap_error
                     (mkLocals 1 (Some (nullish (first_content completion) EmptyString))
                               false 0%Qc)))))).
Proof.
  split; [|split; [|split]].
  - intros turns cost text. unfold isSpendingCapBehavior.
    rewrite !andb_true_iff, !bool_decide_eq_true. tauto.
  - intros turns cost text C. unfold isSpendingCapBehavior.
    rewrite (bool_decide_eq_false_2 (cost = 0%Qc)); [by rewrite andb_false_r|].
    intros ->. by apply Qclt_not_eq in C.
  - intros fullPrompt description options execContext auditLogger timer s m s1 P C.
    unfold runClaudePrompt_try. cbv beta iota zeta delta [mbind Exec_bind].
    rewrite P. run_executor. rewrite C.
    eexists _, _. split; [reflexivity|]. by split.
  - intros prompt sourceDir context description agentName auditSession key
      response completion s K F O J C.
    destruct (runClaudePrompt_run prompt sourceDir context description agentName
                auditSession key s K) as (s' & E & _).
    eexists _, s'. split; [exact E|].
    unfold pipeline_result. rewrite F, O, J.
    cbv zeta. rewrite or_default_Some. unfold isSpendingCapBehavior.
    rewrite C. cbn. by repeat split.
Qed.


(** C9. [processMessageStream] reads the clock twice, first for
    [lastHeartbeat] and then for [now]; with the loader disabled and more
    than 30000 ms between the two readings it logs the elapsed-time line:
    the whole seconds from the start of the timer to [now] between
    brackets, then the description and "running...". That line, if any,
    comes before the request; nothing is logged after the request and the
    clock is not read again. *)
Theorem processMessageStream_heartbeat (fullPrompt : string) (options : Options)
  (deps : MessageLoopDeps) (timer : Timer) (s : State) :
  let lastHeartbeat := clock w (ticks s) in
  let now := clock w (S (ticks s)) in
  let due := bool_decide (SHANNON_DISABLE_LOADER w = Some true)
             && bool_decide (now - lastHeartbeat > 30000) in
  ∃ out s' rest,
    processMessageStream w fullPrompt options deps timer s = (out, s')
    ∧ trace s'
      = trace s
        ++ (if due
            then [LogInfo ("[" +:+ string_of_Z ((now - startTime timer) / 1000)
                             +:+ "s] " +:+ deps_description deps +:+ " running...")]
            else [])
        ++ Fetch (completion_request w fullPrompt options) :: rest
    ∧ filter is_info rest = []
    ∧ ticks s' = S (S (ticks s)).
Proof.
  intros lastHeartbeat now due.
  rewrite processMessageStream_run. unfold heartbeat_line. fold now lastHeartbeat.
  change (bool_decide (SHANNON_DISABLE_LOADER w = Some true)
          && bool_decide (now - lastHeartbeat > HEARTBEAT_INTERVAL)) with due.
  destruct (fetch w _) as [t|response].
  { eexists _, _, []. by repeat split. }
  destruct (resp_ok response).
  2: { eexists _, _, []. by repeat split. }
  destruct (resp_json response) as [t|completion].
  { eexists _, _, []. by repeat split. }
  destruct (deps_auditLogger deps) as [session|].
  - eexists _, _, [_]. cbn [trace ticks]. rewrite <- !app_assoc. by repeat split.
  - eexists _, _, []. cbn [trace ticks]. rewrite <- !app_assoc. by repeat split.
Qed.

End ExecutorProperties.

Section ValidationProperties.

Context (lib : Collaborators).

Lemma Object_prototype_names (name : string) (member : ObjectPrototypeMember) :
  Object_prototype !! name = Some member →
  name ∈ ["constructor"; "toString"; "toLocaleString"; "valueOf"; "hasOwnProperty";
          "isPrototypeOf"; "propertyIsEnumerable"; "__proto__"; "__defineGetter__";
          "__defineSetter__"; "__lookupGetter__"; "__lookupSetter__"].
Proof.
  intros H. apply (elem_of_list_to_map_2 (M := gmap string)) in H.
  apply (list_elem_of_fmap_2 fst) in H. exact H.
Qed.

(** C10, where the code departs from it. For an agent name that has no
    registered validator but names a member every object inherits, a
    successful result with a text is not accepted: for "hasOwnProperty" the
    inherited function is called, throws, and the verdict is false; for
    "toString" the verdict is not a boolean at all but the string the
    inherited function returns. *)
Theorem validateAgentOutput_inherited_member
  (res : ClaudePromptResult) (text sourceDir : string) (s : State) :
  r_success res = true →
  r_result res = Some text → text ≠ EmptyString →
  AGENT_VALIDATORS lib !! "hasOwnProperty" = None →
  AGENT_VALIDATORS lib !! "toString" = None →
  (∃ s', validateAgentOutput lib res (Some "hasOwnProperty") sourceDir s
         = (inr (VBool false), s'))
  ∧ (∃ s', validateAgentOutput lib res (Some "toString") sourceDir s
           = (inr (VString "[object Undefined]"), s')).
Proof.
  intros S E T H1 H2.
  assert (truthy (Some text) = Some text) as Tt by (by destruct text).
  assert (Object_prototype !! "hasOwnProperty" = Some OP_hasOwnProperty) as P1
    by (vm_compute; reflexivity).
  assert (Object_prototype !! "toString" = Some OP_toString) as P2
    by (vm_compute; reflexivity).
  split; unfold validateAgentOutput, lookup_validator; run_exec;
    rewrite S, E, Tt; cbn [orb truthy]; rewrite bool_decide_eq_true_2 by eauto;
    [rewrite H1, P1|rewrite H2, P2]; cbn; eexists; reflexivity.
Qed.

(** X21. A successful result whose text is empty, [null] or [undefined]
    is refused whatever the agent, with the very outcome and log lines of
    an unsuccessful result; a successful result with a text, for an agent
    name that is neither registered nor the name of a member inherited from
    [Object.prototype], is accepted. *)
Theorem validateAgentOutput_empty_or_unregistered
  (res : ClaudePromptResult) (agentName : option string) (sourceDir : string)
  (s : State) :
  r_success res = true →
  (r_result res = None ∨ r_result res = Some EmptyString →
   ∃ s', validateAgentOutput lib res agentName sourceDir s = (inr (VBool false), s')
         ∧ ∀ unsuccessful,
             r_success unsuccessful = false →
             validateAgentOutput lib unsuccessful agentName sourceDir s
             = (inr (VBool false), s'))
  ∧ (∀ text,
       r_result res = Some text → text ≠ EmptyString →
       (∀ name, agentName = Some name →
                AGENT_VALIDATORS lib !! name = None
                ∧ name ∉ ["constructor"; "toString"; "toLocaleString"; "valueOf";
                          "hasOwnProperty"; "isPrototypeOf"; "propertyIsEnumerable";
                          "__proto__"; "__defineGetter__"; "__defineSetter__";
                          "__lookupGetter__"; "__lookupSetter__"]) →
       ∃ s', validateAgentOutput lib res agentName sourceDir s = (inr (VBool true), s')).
Proof.
  intros S. split.
  - intros E. unfold validateAgentOutput. run_exec. rewrite S.
    assert (truthy (r_result res) = None) as ->
      by (destruct E as [-> | ->]; reflexivity).
    cbn. eexists. split; [reflexivity|].
    intros unsuccessful ->. reflexivity.
  - intros text E T V. unfold validateAgentOutput, lookup_validator. run_exec.
    rewrite S, E.
    assert (truthy (Some text) = Some text) as -> by (by destruct text).
    cbn [orb negb]. rewrite bool_decide_eq_true_2 by eauto.
    destruct agentName as [[|c name]|]; cbn [truthy].
    + eexists. reflexivity.
    + destruct (V _ eq_refl) as [-> N].
      destruct (Object_prototype !! String c name) as [member|] eqn:P.
      { destruct N. by apply (Object_prototype_names _ member). }
      eexists. reflexivity.
    + eexists. reflexivity.
Qed.

End ValidationProperties.

(** *** The executor on the sample worlds *)

(** C1 as stated fails: without a credential the invocation returns no
    result at all, it rejects. *)
Lemma runClaudePrompt_missing_key_rejects :
  ¬ ∃ r s',
      runClaudePrompt sample_lib world_no_key "Map the attack surface" "/repo"
                      None None None None state0 = (inr r, s')
      ∧ r_success r = false.
Proof.
  intros (r & s' & E & _).
  rewrite runClaudePrompt_no_key in E by reflexivity. discriminate E.
Qed.

Lemma runClaudePrompt_failure_boundary_witness :
  (∃ r s',
     runClaudePrompt sample_lib world_rate_limited "Map the attack surface" "/repo"
                     None None None None state0 = (inr r, s')
     ∧ failed_with sample_lib r (api_error 429 "slow down"))
  ∧ (∃ s',
       runClaudePrompt sample_lib world_no_key "Map the attack surface" "/repo"
                       None None None None state0
       = (inl (ThrowError (Pentest missing_key_error)), s')
       ∧ pe_category missing_key_error = "config"
       ∧ pe_retryable missing_key_error = false
       ∧ filter is_fetch (trace_since state0 s') = []).
Proof.
  split.
  - destruct (proj1 (runClaudePrompt_failure_boundary sample_lib world_rate_limited
                       "Map the attack surface" "/repo" None None None None state0)
                "sk-test" eq_refl) as (r & s' & E & F & _).
    exists r, s'. split; [exact E|]. apply F. vm_compute. reflexivity.
  - apply (proj2 (runClaudePrompt_failure_boundary sample_lib world_no_key
                    "Map the attack surface" "/repo" None None None None state0)).
    vm_compute. reflexivity.
Defined.

Lemma isSpendingCapBehavior_triggers_witness :
  isSpendingCapBehavior sample_lib 1 0%Qc placeholder = true
  ∧ isSpendingCapBehavior sample_lib 1 (Q2Qc (1 # 2)) placeholder = false
  ∧ (∃ e s2,
       runClaudePrompt_try sample_lib world_capped "ping" "Recon"
         (client_options sample_lib world_capped) (mkExecutionContext false) None
         (mkTimer "agent-recon" 0) state0
       = (inl (ThrowError (Pentest e)), s2)
       ∧ pe_category e = "billing" ∧ pe_retryable e = true)
  ∧ (∃ r s',
       runClaudePrompt sample_lib world_capped "ping" "/repo"
                       None (Some "Recon") None None state0 = (inr r, s')
       ∧ r_success r = false
       ∧ r_errorType r = Some "PentestError"
       ∧ r_retryable r
         = Some (isRetryableError sample_lib (ThrowError (Pentest (spending_cap_error
                   (mkLocals 1 (Some placeholder) false 0%Qc)))))).
Proof.
  pose proof (isSpendingCapBehavior_triggers sample_lib world_capped)
    as (Iff & Paid & Try & Run).
  split; [|split; [|split]].
  - apply Iff. split; [lia|]. split; [reflexivity|]. vm_compute. reflexivity.
  - apply Paid. reflexivity.
  - destruct (processMessageStream world_capped "ping"
                (client_options sample_lib world_capped)
                (mkMessageLoopDeps (mkExecutionContext false) "Recon" None)
                (mkTimer "agent-recon" 0) state0) as [[t|m] s1] eqn:P.
    { vm_compute in P. discriminate P. }
    apply (Try _ _ _ _ _ _ _ m s1 P).
    vm_compute in P. injection P as <- _. vm_compute. reflexivity.
  - apply (Run "ping" "/repo" None (Some "Recon") None None "sk-test"
               (http_ok (mkCompletion None
                  (Some [Some (mkChoice (Some (mkMessage (Some placeholder))))])))
               (mkCompletion None
                  (Some [Some (mkChoice (Some (mkMessage (Some placeholder))))]))
               state0); vm_compute; reflexivity.
Defined.


Lemma processMessageStream_heartbeat_witness :
  ∃ out s' rest,
    processMessageStream world_jumpy_clock "ping"
      (client_options sample_lib world_jumpy_clock)
      (mkMessageLoopDeps (mkExecutionContext false) "Recon" None)
      (mkTimer "agent-recon" 4500) state0 = (out, s')
    ∧ trace s'
      = LogInfo "[35s] Recon running..."
        :: Fetch (completion_request world_jumpy_clock "ping"
                    (client_options sample_lib world_jumpy_clock))
        :: rest
    ∧ filter is_info rest = []
    ∧ ticks s' = 2%nat.
Proof.
  destruct (processMessageStream_heartbeat world_jumpy_clock "ping"
              (client_options sample_lib world_jumpy_clock)
              (mkMessageLoopDeps (mkExecutionContext false) "Recon" None)
              (mkTimer "agent-recon" 4500) state0)
    as (out & s' & rest & E & T & I & K).
  exists out, s', rest. split; [exact E|]. split; [|split; [exact I|exact K]].
  rewrite T. reflexivity.
Defined.

(** With the loader disabled and 40 seconds between two readings of the
    clock, the heartbeat line comes first, then the request. *)
Example heartbeat_on_jumpy_clock :
  trace (snd (processMessageStream world_jumpy_clock "ping"
                (client_options sample_lib world_jumpy_clock)
                (mkMessageLoopDeps (mkExecutionContext false) "Recon" None)
                (mkTimer "agent-recon" 0) state0))
  = [LogInfo "[40s] Recon running...";
     Fetch (completion_request world_jumpy_clock "ping"
              (client_options sample_lib world_jumpy_clock))].
Proof. vm_compute. reflexivity. Qed.

(** On a steady clock no heartbeat line is logged. *)
Example no_heartbeat_on_steady_clock :
  trace (snd (processMessageStream world_ready "ping"
                (client_options sample_lib world_ready)
                (mkMessageLoopDeps (mkExecutionContext false) "Recon" None)
                (mkTimer "agent-recon" 0) state0))
  = [Fetch (completion_request world_ready "ping"
              (client_options sample_lib world_ready))].
Proof. vm_compute. reflexivity. Qed.

Lemma validateAgentOutput_inherited_member_witness :
  (∃ s', validateAgentOutput sample_lib (sample_result (Some "report"))
                             (Some "hasOwnProperty") "/repo" state0
         = (inr (VBool false), s'))
  ∧ (∃ s', validateAgentOutput sample_lib (sample_result (Some "report"))
                               (Some "toString") "/repo" state0
           = (inr (VString "[object Undefined]"), s')).
Proof.
  apply (validateAgentOutput_inherited_member sample_lib
           (sample_result (Some "report")) "report" "/repo" state0);
    first [discriminate | vm_compute; reflexivity].
Defined.

Lemma validateAgentOutput_empty_or_unregistered_witness :
  (∃ s', validateAgentOutput sample_lib (sample_result (Some EmptyString))
                             (Some "recon") "/repo" state0 = (inr (VBool false), s'))
  ∧ (∃ s', validateAgentOutput sample_lib (sample_result (Some "report"))
                               (Some "unknown-agent") "/repo" state0
           = (inr (VBool true), s')).
Proof.
  split.
  - destruct (proj1 (validateAgentOutput_empty_or_unregistered sample_lib
                       (sample_result (Some EmptyString)) (Some "recon") "/repo" state0
                       eq_refl) (or_intror eq_refl)) as (s' & E & _).
    exists s'. exact E.
  - apply (proj2 (validateAgentOutput_empty_or_unregistered sample_lib
                    (sample_result (Some "report")) (Some "unknown-agent") "/repo" state0
                    eq_refl) "report" eq_refl).
    + discriminate.
    + intros name [= <-]. split; [vm_compute; reflexivity|].
      apply not_elem_of_cons; split; [discriminate|].
      repeat (apply not_elem_of_cons; split; [discriminate|]).
      apply not_elem_of_nil.
Defined.

(** ** More on the preflight gate *)

Section PreflightFootprint.

Context (isRetryableError : Thrown → bool).
Context (w : World).

Lemma validateRepo_outcome (repoPath : string) (s : State) :
  ∃ out events,
    validateRepo w repoPath s
    = (inr out, mkState (trace s ++ events) (ticks s) (locals s))
    ∧ match stat w repoPath with
      | inl _ =>
        out = err (repo_error ("Repository path does not exist: " +:+ repoPath) repoPath)
        ∧ filter is_io events = [FsStat repoPath]
      | inr stats =>
        if isDirectory stats then
          filter is_io events = [FsStat repoPath; FsStat (repoPath +:+ "/.git")]
          ∧ match stat w (repoPath +:+ "/.git") with
            | inl _ =>
              out = err (repo_error
                      ("Not a git repository (no .git directory): " +:+ repoPath) repoPath)
            | inr gitStats =>
              if isDirectory gitStats then out = ok tt
              else out = err (repo_error
                      ("Not a git repository (no .git directory): " +:+ repoPath) repoPath)
            end
        else
          out = err (repo_error
                  ("Repository path is not a directory: " +:+ repoPath) repoPath)
          ∧ filter is_io events = [FsStat repoPath]
      end.
Proof.
  unfold validateRepo. run_exec.
  destruct (stat w repoPath) as [t|st].
  { eexists _, [_; _]. rewrite <- !app_assoc. by split. }
  destruct (isDirectory st); run_exec.
  2: { eexists _, [_; _]. rewrite <- !app_assoc. by split. }
  destruct (stat w (repoPath +:+ "/.git")) as [t|gst].
  { eexists _, [_; _; _]. rewrite <- !app_assoc. by split. }
  destruct (isDirectory gst); run_exec.
  - eexists _, [_; _; _; _]. rewrite <- !app_assoc. by split.
  - eexists _, [_; _; _]. rewrite <- !app_assoc. by split.
Qed.

Lemma validateConfig_outcome (configPath : string) (s : State) :
  ∃ out events,
    validateConfig w configPath s
    = (inr out, mkState (trace s ++ events) (ticks s) (locals s))
    ∧ filter is_io events = [ParseConfig configPath]
    ∧ match parseConfig w configPath with
      | None => out = ok tt
      | Some (ThrowError (Pentest typed)) => out = err typed
      | Some t =>
        out = err (mkPentestError
                     ("Configuration validation failed: " +:+ message_of t)
                     "config" false {[ "configPath" := configPath ]}
                     (Some CONFIG_VALIDATION_FAILED))
      end.
Proof.
  unfold validateConfig. run_exec.
  destruct (parseConfig w configPath) as [[[o|p]|c r]|].
  all: try (eexists _, [_; _]; rewrite <- !app_assoc; by repeat split).
  eexists _, [_; _; _]. rewrite <- !app_assoc. by repeat split.
Qed.

Lemma validateCredentials_outcome (s : State) :
  ∃ out events,
    validateCredentials isRetryableError w s
    = (inr out, mkState (trace s ++ events) (ticks s) (locals s))
    ∧ match truthy (env w !! "OPENAI_API_KEY") with
      | None =>
        events = []
        ∧ out = err (mkPentestError
                       "No API credentials found. Set OPENAI_API_KEY in .env"
                       "config" false ∅ (Some AUTH_FAILED))
      | Some key =>
        filter is_io events = [Fetch (credential_request w key)]
        ∧ match request_failure (fetch w (credential_request w key)) with
          | None => out = ok tt
          | Some error =>
            ∃ e, out = err e
                 ∧ pe_context e = {[ "authType" := "OpenAI API key" ]}
                 ∧ if isRetryableError (as_Error error)
                   then pe_message e
                        = "Failed to reach OpenAI API. Check your network connection."
                        ∧ pe_category e = "network" ∧ pe_retryable e = true
                        ∧ pe_code e = None
                   else pe_category e = "config" ∧ pe_retryable e = false
                        ∧ pe_code e = Some AUTH_FAILED
          end
      end.
Proof.
  unfold validateCredentials.
  destruct (truthy (env w !! "OPENAI_API_KEY")) as [key|].
  2: { eexists _, []. rewrite app_nil_r. destruct s. by repeat split. }
  run_exec. unfold request_failure.
  destruct (fetch w (credential_request w key)) as [t|response] eqn:F.
  { eexists _, [_; _]. rewrite <- !app_assoc. split; [reflexivity|].
    split; [reflexivity|]. eexists. split; [reflexivity|]. split; [reflexivity|].
    cbv beta iota zeta. by destruct (isRetryableError (as_Error t)). }
  destruct (resp_ok response) eqn:O; run_exec.
  { eexists _, [_; _; _]. rewrite <- !app_assoc. by repeat split. }
  destruct (resp_text response);
    (eexists _, [_; _]; rewrite <- !app_assoc; split; [reflexivity|];
     split; [reflexivity|]; eexists; split; [reflexivity|]; split; [reflexivity|];
     cbv beta iota zeta;
     match goal with |- context [isRetryableError ?x] =>
       by destruct (isRetryableError x) end).
Qed.

(** A run of the gate stops at the repository check, stops at the
    configuration check, or reaches the credential check. *)
Lemma runPreflightChecks_stages (repoPath : string) (configPath : option string)
  (s : State) :
  ∃ out events,
    runPreflightChecks isRetryableError w repoPath configPath s
    = (inr out, mkState (trace s ++ events) (ticks s) (locals s))
    ∧ ((¬ (directory_at w repoPath ∧ directory_at w (repoPath +:+ "/.git"))
        ∧ (∃ message, out = err (repo_error message repoPath))
        ∧ filter is_io events `prefix_of` [FsStat repoPath; FsStat (repoPath +:+ "/.git")])
       ∨ (directory_at w repoPath ∧ directory_at w (repoPath +:+ "/.git")
          ∧ ∃ path t,
              truthy configPath = Some path ∧ parseConfig w path = Some t
              ∧ out = err (config_wrapped path t)
              ∧ filter is_io events
                = [FsStat repoPath; FsStat (repoPath +:+ "/.git"); ParseConfig path])
       ∨ (directory_at w repoPath ∧ directory_at w (repoPath +:+ "/.git")
          ∧ (∀ path, truthy configPath = Some path → parseConfig w path = None)
          ∧ filter is_io events = preflight_io w repoPath configPath
          ∧ match truthy (env w !! "OPENAI_API_KEY") with
            | None =>
              out = err (mkPentestError
                           "No API credentials found. Set OPENAI_API_KEY in .env"
                           "config" false ∅ (Some AUTH_FAILED))
            | Some key =>
              match request_failure (fetch w (credential_request w key)) with
              | None => out = ok tt
              | Some error =>
                ∃ e, out = err e
                     ∧ pe_context e = {[ "authType" := "OpenAI API key" ]}
                     ∧ if isRetryableError (as_Error error)
                       then pe_message e
                            = "Failed to reach OpenAI API. Check your network connection."
                            ∧ pe_category e = "network" ∧ pe_retryable e = true
                            ∧ pe_code e = None
                       else pe_category e = "config" ∧ pe_retryable e = false
                            ∧ pe_code e = Some AUTH_FAILED
              end
            end)).
Proof.
  unfold runPreflightChecks. run_exec.
  destruct (validateRepo_outcome repoPath s) as (r1 & ev1 & -> & H1).
  destruct (stat w repoPath) as [t|st] eqn:S1.
  { destruct H1 as [-> IO]. cbn [is_ok]. eexists _, ev1. split; [reflexivity|].
    left. split; [|split; [eauto|rewrite IO; by eexists [_]]].
    intros [(st & ? & _) _]. congruence. }
  destruct (isDirectory st) eqn:D1.
  2: { destruct H1 as [-> IO]. cbn [is_ok]. eexists _, ev1. split; [reflexivity|].
       left. split; [|split; [eauto|rewrite IO; by eexists [_]]].
       intros [(st' & ? & ?) _]. congruence. }
  destruct H1 as [IO H1].
  destruct (stat w (repoPath +:+ "/.git")) as [t|gst] eqn:S2.
  { subst r1. cbn [is_ok]. eexists _, ev1. split; [reflexivity|].
    left. split; [|split; [eauto|rewrite IO; by eexists []]].
    intros [_ (st' & ? & ?)]. congruence. }
  destruct (isDirectory gst) eqn:D2.
  2: { subst r1. cbn [is_ok]. eexists _, ev1. split; [reflexivity|].
       left. split; [|split; [eauto|rewrite IO; by eexists []]].
       intros [_ (st' & ? & ?)]. congruence. }
  subst r1. cbn [is_ok].
  assert (directory_at w repoPath) as R1 by (by exists st).
  assert (directory_at w (repoPath +:+ "/.git")) as R2 by (by exists gst).
  destruct (truthy configPath) as [path|] eqn:T; run_exec.
  - destruct (validateConfig_outcome path
                (mkState (trace s ++ ev1) (ticks s) (locals s)))
      as (r2 & ev2 & -> & IO2 & H2).
    cbn [trace ticks locals].
    destruct (parseConfig w path) as [t|] eqn:P.
    { assert (r2 = err (config_wrapped path t)) as ->
        by (destruct t as [[o|p]|c r]; exact H2).
      cbn [is_ok]. eexists _, (ev1 ++ ev2). rewrite <- !app_assoc.
      split; [reflexivity|]. right; left. split; [done|]. split; [done|].
      exists path, t. rewrite filter_app, IO, IO2. by repeat split. }
    subst r2. cbn [is_ok].
    destruct (validateCredentials_outcome
                (mkState ((trace s ++ ev1) ++ ev2) (ticks s) (locals s)))
      as (r3 & ev3 & -> & H3).
    cbn [trace ticks locals]. unfold preflight_io. rewrite T.
    destruct (truthy (env w !! "OPENAI_API_KEY")) as [key|].
    + destruct H3 as [IO3 H3].
      destruct (request_failure (fetch w (credential_request w key))) as [error|].
      * destruct H3 as (e & -> & H3). cbn [is_ok].
        eexists _, (ev1 ++ ev2 ++ ev3). rewrite <- !app_assoc.
        split; [reflexivity|]. right; right. rewrite !filter_app, IO, IO2, IO3.
        repeat (split; [done|]). split; [by intros ? [= <-]|]. split; [done|]. eauto.
      * subst r3. cbn [is_ok trace ticks locals].
        eexists _, (ev1 ++ ev2 ++ ev3 ++ [_]). rewrite <- !app_assoc.
        split; [reflexivity|]. right; right. rewrite !filter_app, IO, IO2, IO3.
        repeat (split; [done|]). split; [by intros ? [= <-]|]. by split.
    + destruct H3 as [-> ->]. cbn [is_ok].
      eexists _, (ev1 ++ ev2). rewrite <- !app_assoc, !app_nil_r.
      split; [reflexivity|]. right; right. rewrite !filter_app, IO, IO2.
      repeat (split; [done|]). split; [by intros ? [= <-]|]. by split.
  - destruct (validateCredentials_outcome
                (mkState (trace s ++ ev1) (ticks s) (locals s)))
      as (r3 & ev3 & -> & H3).
    cbn [trace ticks locals]. unfold preflight_io. rewrite T.
    destruct (truthy (env w !! "OPENAI_API_KEY")) as [key|].
    + destruct H3 as [IO3 H3].
      destruct (request_failure (fetch w (credential_request w key))) as [error|].
      * destruct H3 as (e & -> & H3). cbn [is_ok].
        eexists _, (ev1 ++ ev3). rewrite <- !app_assoc.
        split; [reflexivity|]. right; right. rewrite !filter_app, IO, IO3.
        repeat (split; [done|]). eauto.
      * subst r3. cbn [is_ok trace ticks locals].
        eexists _, (ev1 ++ ev3 ++ [_]). rewrite <- !app_assoc.
        split; [reflexivity|]. right; right. rewrite !filter_app, IO, IO3.
        repeat (split; [done|]). done.
    + destruct H3 as [-> ->]. cbn [is_ok].
      eexists _, ev1. rewrite !app_nil_r.
      split; [reflexivity|]. right; right. rewrite IO.
      repeat (split; [done|]). done.
Qed.

(** X1. The repository check passes exactly when the path is a directory
    that holds a [.git] directory. *)
Theorem validateRepo_accepts_git_repositories (repoPath : string) (s : State) :
  (∃ s', validateRepo w repoPath s = (inr (ok tt), s'))
  ↔ directory_at w repoPath ∧ directory_at w (repoPath +:+ "/.git").
Proof.
  destruct (validateRepo_outcome repoPath s) as (out & events & E & H).
  rewrite E. unfold directory_at. split.
  - intros (s' & [= -> _]).
    destruct (stat w repoPath) as [t|st]; [by destruct H|].
    destruct (isDirectory st) eqn:D1; [|by destruct H].
    destruct H as [_ H].
    destruct (stat w (repoPath +:+ "/.git")) as [t|gst]; [done|].
    destruct (isDirectory gst) eqn:D2; [|done].
    split; [exists st|exists gst]; by split.
  - intros [(st & S1 & D1) (gst & S2 & D2)].
    rewrite S1, D1, S2, D2 in H. destruct H as [_ ->]. eauto.
Qed.

(** X2. When the path is missing or is not a directory, the check stops
    there: [.git] is never statted, and the message tells which of the two
    it was. *)
Theorem validateRepo_stops_at_the_path (repoPath : string) (s : State) :
  ¬ directory_at w repoPath →
  ∃ e s',
    validateRepo w repoPath s = (inr (err e), s')
    ∧ filter is_io (trace_since s s') = [FsStat repoPath]
    ∧ pe_message e
      = match stat w repoPath with
        | inl _ => "Repository path does not exist: " +:+ repoPath
        | inr _ => "Repository path is not a directory: " +:+ repoPath
        end.
Proof.
  intros N.
  destruct (validateRepo_outcome repoPath s) as (out & events & E & H).
  rewrite E.
  destruct (stat w repoPath) as [t|st] eqn:S1.
  { destruct H as [-> IO]. eexists _, _. split; [reflexivity|].
    rewrite (trace_since_app s _ events) by reflexivity. by split. }
  destruct (isDirectory st) eqn:D1.
  { exfalso. apply N. by exists st. }
  destruct H as [-> IO]. eexists _, _. split; [reflexivity|].
  rewrite (trace_since_app s _ events) by reflexivity. by split.
Qed.

(** X3. The repository check never rejects and reads no clock; whatever
    error it returns is a config error that is not retryable, has the code
    REPO_NOT_FOUND and records the path in its context. *)
Theorem validateRepo_errors_are_not_found (repoPath : string) (s : State) :
  ∃ out s',
    validateRepo w repoPath s = (inr out, s')
    ∧ ticks s' = ticks s
    ∧ ∀ e, out = err e →
           pe_category e = "config" ∧ pe_retryable e = false
           ∧ pe_code e = Some REPO_NOT_FOUND
           ∧ pe_context e !! "repoPath" = Some repoPath.
Proof.
  destruct (validateRepo_outcome repoPath s) as (out & events & E & H).
  exists out. eexists. split; [exact E|]. split; [reflexivity|].
  assert (out = ok tt ∨ ∃ message, out = err (repo_error message repoPath)) as [->|[m ->]].
  { destruct (stat w repoPath) as [t|st]; [destruct H as [-> _]; eauto|].
    destruct (isDirectory st); [|destruct H as [-> _]; eauto].
    destruct H as [_ H].
    destruct (stat w (repoPath +:+ "/.git")) as [t|gst]; [subst; eauto|].
    destruct (isDirectory gst); subst; eauto. }
  - discriminate.
  - intros e [= <-]. repeat split.
Qed.

(** X4. The configuration check never rejects, calls the parser exactly
    once, on the path it was given, touches neither the file system nor
    the endpoint itself, and passes exactly when the parser resolves. *)
Theorem validateConfig_parses_once (configPath : string) (s : State) :
  ∃ out s',
    validateConfig w configPath s = (inr out, s')
    ∧ filter is_io (trace_since s s') = [ParseConfig configPath]
    ∧ (is_ok out = true ↔ parseConfig w configPath = None).
Proof.
  destruct (validateConfig_outcome configPath s) as (out & events & E & IO & H).
  exists out. eexists. split; [exact E|].
  rewrite (trace_since_app s _ events) by reflexivity. split; [exact IO|].
  destruct (parseConfig w configPath) as [[[o|p]|c r]|]; subst out; by split.
Qed.

(** X5. With a key in the environment the credential check never rejects
    and issues exactly one request: a POST of the single message "ping"
    with a budget of 16 tokens, authorised by that key, for the model
    OPENAI_MODEL names or else gpt-4.1-mini. It passes exactly when the
    response has a success status; the body is not looked at. *)
Theorem validateCredentials_single_ping (key : string) (s : State) :
  truthy (env w !! "OPENAI_API_KEY") = Some key →
  ∃ out s' req,
    validateCredentials isRetryableError w s = (inr out, s')
    ∧ filter is_io (trace_since s s') = [Fetch req]
    ∧ req_url req = "https://api.openai.com/v1/chat/completions"
    ∧ req_authorization req = "Bearer " +:+ key
    ∧ req_model req = match truthy (env w !! "OPENAI_MODEL") with
                      | Some model => model
                      | None => "gpt-4.1-mini"
                      end
    ∧ req_content req = "ping"
    ∧ req_max_completion_tokens req = Some 16
    ∧ (is_ok out = true ↔ ∃ response, fetch w req = inr response
                                      ∧ resp_ok response = true).
Proof.
  intros K.
  destruct (validateCredentials_outcome s) as (out & events & E & H).
  rewrite K in H. destruct H as [IO H].
  exists out. eexists. exists (credential_request w key). split; [exact E|].
  rewrite (trace_since_app s _ events) by reflexivity. split; [exact IO|].
  repeat (split; [reflexivity|]).
  unfold request_failure in H.
  destruct (fetch w (credential_request w key)) as [t|response].
  { destruct H as (e & -> & _). split; [done|]. by intros (? & ? & _). }
  destruct (resp_ok response) eqn:O.
  - subst out. split; eauto.
  - destruct H as (e & -> & _). split; [done|]. intros (? & [= <-] & ?). congruence.
Qed.

(** X6. The gate never rejects. The calls it makes are, in this order,
    [fs.stat] of the path, [fs.stat] of its [.git], the parser (when a
    non-empty configuration path was given) and one request (when a key is
    set), and it stops somewhere along this sequence: it makes a prefix of
    these calls, and all of them when it passes. *)
Theorem runPreflightChecks_cheapest_first
  (repoPath : string) (configPath : option string) (s : State) :
  ∃ out s',
    runPreflightChecks isRetryableError w repoPath configPath s = (inr out, s')
    ∧ filter is_io (trace_since s s') `prefix_of` preflight_io w repoPath configPath
    ∧ (is_ok out = true →
       filter is_io (trace_since s s') = preflight_io w repoPath configPath).
Proof.
  destruct (runPreflightChecks_stages repoPath configPath s)
    as (out & events & E & H).
  exists out. eexists. split; [exact E|].
  rewrite (trace_since_app s _ events) by reflexivity.
  destruct H as [(_ & (m & ->) & P)|[(_ & _ & path & t & T & _ & -> & IO)|(_ & _ & _ & IO & _)]].
  - split; [|done]. etrans; [exact P|]. unfold preflight_io. by eexists.
  - split; [|done]. rewrite IO. unfold preflight_io. rewrite T. by eexists.
  - by rewrite IO.
Qed.

(** X7. The gate passes exactly when the path is a git repository, the
    parser resolves on the configuration path (if one was given), a key is
    set and the endpoint answers the ping with a success status. *)
Theorem runPreflightChecks_passes_iff
  (repoPath : string) (configPath : option string) (s : State) :
  (∃ s', runPreflightChecks isRetryableError w repoPath configPath s = (inr (ok tt), s'))
  ↔ directory_at w repoPath
    ∧ directory_at w (repoPath +:+ "/.git")
    ∧ (∀ path, truthy configPath = Some path → parseConfig w path = None)
    ∧ ∃ key response,
        truthy (env w !! "OPENAI_API_KEY") = Some key
        ∧ fetch w (credential_request w key) = inr response
        ∧ resp_ok response = true.
Proof.
  destruct (runPreflightChecks_stages repoPath configPath s)
    as (out & events & E & H).
  rewrite E. split.
  - intros (s' & [= -> _]).
    destruct H as [(_ & (m & ?) & _)|[(_ & _ & path & t & _ & _ & ? & _)|(R1 & R2 & C & _ & H)]];
      [discriminate..|].
    repeat (split; [done|]).
    destruct (truthy (env w !! "OPENAI_API_KEY")) as [key|]; [|discriminate].
    unfold request_failure in H.
    destruct (fetch w (credential_request w key)) as [t|response] eqn:F.
    { by destruct H as (e & ? & _). }
    destruct (resp_ok response) eqn:O; [eauto|]. by destruct H as (e & ? & _).
  - intros (R1 & R2 & C & key & response & K & F & O).
    destruct H as [(N & _)|[(_ & _ & path & t & T & P & _)|(_ & _ & _ & _ & H)]].
    + by destruct N.
    + rewrite (C path T) in P. discriminate.
    + rewrite K in H. unfold request_failure in H. rewrite F, O in H.
      subst out. eauto.
Qed.

(** X8. Every error the gate returns is of one of three kinds: an error
    the configuration parser classified itself, passed through; a config
    error that is not retryable and carries one of the codes
    REPO_NOT_FOUND, CONFIG_VALIDATION_FAILED and AUTH_FAILED; or the
    retryable network error, which carries no code. *)
Theorem runPreflightChecks_error_kinds
  (repoPath : string) (configPath : option string) (s s' : State) (e : PentestError) :
  runPreflightChecks isRetryableError w repoPath configPath s = (inr (err e), s') →
  (∃ path, truthy configPath = Some path
           ∧ parseConfig w path = Some (ThrowError (Pentest e)))
  ∨ (pe_category e = "config" ∧ pe_retryable e = false
     ∧ (pe_code e = Some REPO_NOT_FOUND
        ∨ pe_code e = Some CONFIG_VALIDATION_FAILED
        ∨ pe_code e = Some AUTH_FAILED))
  ∨ (pe_category e = "network" ∧ pe_retryable e = true ∧ pe_code e = None
     ∧ pe_message e = "Failed to reach OpenAI API. Check your network connection.").
Proof.
  intros R.
  destruct (runPreflightChecks_stages repoPath configPath s)
    as (out & events & E & H).
  rewrite E in R. injection R as -> _.
  destruct H as [(_ & (m & [= ->]) & _)|[(_ & _ & path & t & T & P & [= ->] & _)|(_ & _ & _ & _ & H)]].
  - right; left. repeat split. by left.
  - destruct t as [[o|p]|c r]; cbn [config_wrapped].
    + right; left. repeat split. right; by left.
    + left. eauto.
    + right; left. repeat split. right; by left.
  - destruct (truthy (env w !! "OPENAI_API_KEY")) as [key|].
    + destruct (request_failure (fetch w (credential_request w key))) as [error|];
        [|discriminate].
      destruct H as (e' & [= <-] & _ & H).
      destruct (isRetryableError (as_Error error)).
      * right; right. tauto.
      * right; left. destruct H as (? & ? & ?). repeat split; try done. right; by right.
    + injection H as ->. right; left. repeat split. right; by right.
Qed.

(** X9. Besides its calls to the file system, the parser and the
    endpoint, the gate only writes informational log lines: no warning, no
    error line, no console output, and no file is written; it reads no
    clock and leaves the locals alone. *)
Theorem runPreflightChecks_only_informs
  (repoPath : string) (configPath : option string) (s : State) :
  ∃ out s',
    runPreflightChecks isRetryableError w repoPath configPath s = (inr out, s')
    ∧ Forall (λ e, is_io e || is_info e = true) (trace_since s s')
    ∧ ticks s' = ticks s ∧ locals s' = locals s.
Proof.
  unfold runPreflightChecks, validateRepo, validateConfig, validateCredentials.
  run_exec.
  repeat (match goal with
          | |- context [stat w ?p] => destruct (stat w p) as [?t|?st]
          | |- context [isDirectory ?x] => destruct (isDirectory x)
          | |- context [truthy ?x] => destruct (truthy x) as [?v|]
          | |- context [parseConfig w ?p] => destruct (parseConfig w p) as [[[?o|?p]|? ?]|]
          | |- context [fetch w ?r] => destruct (fetch w r) as [?t|?response]
          | |- context [resp_ok ?x] => destruct (resp_ok x)
          | |- context [resp_text ?x] => destruct (resp_text x)
          end; run_exec; cbn [is_ok]);
    (eexists _, _; split; [reflexivity|]; cbn [trace ticks locals];
     rewrite <- ?app_assoc;
     split; [erewrite trace_since_app; [|reflexivity]; repeat constructor|by split]).
Qed.

End PreflightFootprint.

(** *** More of the gate on the sample worlds *)

Lemma validateRepo_accepts_git_repositories_witness :
  ∃ s', validateRepo world_ready "/repo" state0 = (inr (ok tt), s').
Proof.
  apply (proj2 (validateRepo_accepts_git_repositories world_ready "/repo" state0)).
  split; exists (mkStats true); split; reflexivity.
Defined.

Lemma validateRepo_stops_at_the_path_witness :
  ∃ e s',
    validateRepo world_no_repo "/repo" state0 = (inr (err e), s')
    ∧ filter is_io (trace_since state0 s') = [FsStat "/repo"]
    ∧ pe_message e = "Repository path does not exist: /repo".
Proof.
  apply (validateRepo_stops_at_the_path world_no_repo "/repo" state0).
  intros (stats & E & _). vm_compute in E. discriminate E.
Defined.

Lemma validateRepo_errors_are_not_found_witness :
  ∃ e s',
    validateRepo world_no_git "/repo" state0 = (inr (err e), s')
    ∧ pe_code e = Some REPO_NOT_FOUND
    ∧ pe_context e !! "repoPath" = Some "/repo".
Proof.
  destruct (validateRepo_errors_are_not_found world_no_git "/repo" state0)
    as (out & s' & E & _ & H).
  destruct out as [u|e].
  { vm_compute in E. discriminate E. }
  exists e, s'. split; [exact E|]. destruct (H e eq_refl) as (_ & _ & C & X).
  split; assumption.
Defined.

Lemma validateConfig_parses_once_witness :
  ∃ out s',
    validateConfig world_ready "shannon.yaml" state0 = (inr out, s')
    ∧ filter is_io (trace_since state0 s') = [ParseConfig "shannon.yaml"]
    ∧ is_ok out = true.
Proof.
  destruct (validateConfig_parses_once world_ready "shannon.yaml" state0)
    as (out & s' & E & IO & Iff).
  exists out, s'. split; [exact E|]. split; [exact IO|].
  apply Iff. reflexivity.
Defined.

Lemma validateCredentials_single_ping_witness :
  ∃ out s' req,
    validateCredentials sample_isRetryableError world_rejected_key state0 = (inr out, s')
    ∧ filter is_io (trace_since state0 s') = [Fetch req]
    ∧ req_authorization req = "Bearer sk-test"
    ∧ req_content req = "ping"
    ∧ is_ok out ≠ true.
Proof.
  destruct (validateCredentials_single_ping sample_isRetryableError world_rejected_key
              "sk-test" state0 eq_refl)
    as (out & s' & req & E & IO & _ & A & _ & C & _ & Iff).
  exists out, s', req. repeat (split; [assumption|]).
  intros O. apply Iff in O. destruct O as (response & F & O).
  vm_compute in F. injection F as <-. discriminate O.
Defined.

Lemma runPreflightChecks_cheapest_first_witness :
  ∃ out s',
    runPreflightChecks sample_isRetryableError world_ready "/repo"
                       (Some "shannon.yaml") state0 = (inr out, s')
    ∧ filter is_io (trace_since state0 s')
      = [FsStat "/repo"; FsStat "/repo/.git"; ParseConfig "shannon.yaml";
         Fetch (credential_request world_ready "sk-test")].
Proof.
  destruct (runPreflightChecks_cheapest_first sample_isRetryableError world_ready
              "/repo" (Some "shannon.yaml") state0) as (out & s' & E & _ & All).
  exists out, s'. split; [exact E|]. apply All.
  vm_compute in E. injection E as <- _. reflexivity.
Defined.

Lemma runPreflightChecks_passes_iff_witness :
  ∃ s', runPreflightChecks sample_isRetryableError world_ready "/repo"
                           (Some "shannon.yaml") state0 = (inr (ok tt), s').
Proof.
  apply (proj2 (runPreflightChecks_passes_iff sample_isRetryableError world_ready
                  "/repo" (Some "shannon.yaml") state0)).
  split; [exists (mkStats true); split; reflexivity|].
  split; [exists (mkStats true); split; reflexivity|].
  split; [reflexivity|].
  exists "sk-test", (http_ok pong). repeat split.
Defined.

Lemma runPreflightChecks_error_kinds_witness :
  ∃ e s',
    runPreflightChecks sample_isRetryableError world_rate_limited "/repo" None state0
    = (inr (err e), s')
    ∧ pe_category e = "network" ∧ pe_retryable e = true ∧ pe_code e = None.
Proof.
  destruct (runPreflightChecks sample_isRetryableError world_rate_limited "/repo"
              None state0) as [[t|[u|e]] s'] eqn:E;
    try (vm_compute in E; discriminate E).
  exists e, s'. split; [reflexivity|].
  destruct (runPreflightChecks_error_kinds sample_isRetryableError world_rate_limited
              "/repo" None state0 s' e E) as [(path & T & _)|[(_ & R & _)|(C & R & K & _)]].
  - discriminate T.
  - vm_compute in E. injection E as <- _. discriminate R.
  - repeat split; assumption.
Defined.

(** ** More on the executor *)

Lemma filter_console_out (P : Event → bool) (lines : list string) :
  (∀ line, P (ConsoleLog line) = false) →
  filter P (map ConsoleLog lines) = [].
Proof.
  intros H. induction lines as [|line rest IH]; [reflexivity|].
  cbn [map]. rewrite filter_cons, IH. destruct (decide _) as [Y|N]; [|reflexivity].
  rewrite H in Y. destruct Y.
Qed.


Lemma slice0_length (n : nat) (text : string) :
  (String.length (slice0 n text) ≤ n)%nat.
Proof.
  unfold slice0. revert text.
  induction n as [|n IH]; intros [|c text]; cbn; try lia.
  specialize (IH text). lia.
Qed.

Lemma slice0_short (n : nat) (text : string) :
  (String.length text ≤ n)%nat → slice0 n text = text.
Proof.
  unfold slice0. revert text.
  induction n as [|n IH]; intros [|c text] H; cbn in *; try reflexivity; try lia.
  rewrite IH by lia. reflexivity.
Qed.

Lemma slice0_prefix (n : nat) (text : string) :
  ∃ tail, text = slice0 n text +:+ tail
          ∧ String.length (slice0 n text) = Nat.min n (String.length text).
Proof.
  unfold slice0. revert text.
  induction n as [|n IH]; intros [|c text]; simpl.
  - by exists EmptyString.
  - by exists (String c text).
  - by exists EmptyString.
  - destruct (IH text) as (tail & E & L). exists tail.
    split; [|lia].
    change (String c text = String c (substring 0 n text +:+ tail)). congruence.
Qed.

Lemma append_length (a b : string) :
  String.length (a +:+ b) = (String.length a + String.length b)%nat.
Proof. induction a as [|c a IH]; simpl; [reflexivity|by f_equal]. Qed.

Lemma or_default_nonempty (v : option string) (d : string) :
  d ≠ EmptyString → or_default v d ≠ EmptyString.
Proof. intros D. by destruct v as [[|c text]|]. Qed.

Section ExecutorFootprint.

Context (lib : Collaborators).
Context (w : World).

Lemma writeErrorLog_trace (error : Thrown) (sourceDir fullPrompt : string)
  (duration : Z) (s : State) :
  writeErrorLog lib w error sourceDir fullPrompt duration s
  = (inr tt,
     mkState (trace s ++ [FsAppendFile (path_join lib sourceDir "error.log")
                            (error_log_line lib error sourceDir fullPrompt duration
                                            (clock w (ticks s)))])
             (S (ticks s)) (locals s)).
Proof.
  unfold writeErrorLog, do_formatTimestamp, error_log_line. run_executor.
  destruct (appendFile w _ _); reflexivity.
Qed.

Lemma runClaudePrompt_catch_trace (fullPrompt description sourceDir : string)
  (execContext : ExecutionContext) (auditLogger : option string)
  (timer : Timer) (error : Thrown) (s : State) :
  let duration := clock w (ticks s) - startTime timer in
  runClaudePrompt_catch lib w fullPrompt description sourceDir execContext
                        auditLogger timer error s
  = (inr (failure_result lib fullPrompt duration (totalCost (locals s)) error),
     mkState (trace s ++ catch_events lib fullPrompt description sourceDir execContext
                           auditLogger (clock w (S (ticks s))) error duration
                           (turnCount (locals s)))
             (S (S (ticks s))) (locals s)).
Proof.
  intros duration. unfold runClaudePrompt_catch, catch_events. run_executor.
  fold duration.
  destruct auditLogger as [session|]; run_executor; rewrite outputLines_run;
    cbn [trace ticks locals]; rewrite writeErrorLog_trace;
    cbn [trace ticks locals]; rewrite <- !app_assoc; reflexivity.
Qed.

Lemma runClaudePrompt_body_trace (fullPrompt description sourceDir : string)
  (execContext : ExecutionContext) (auditSession : option string)
  (timer : Timer) (entry : State) :
  locals entry = mkLocals 0 None false 0%Qc →
  ∃ n l,
    try_catch
      (runClaudePrompt_try lib w fullPrompt description (client_options lib w)
                           execContext auditSession timer)
      (runClaudePrompt_catch lib w fullPrompt description sourceDir
                             execContext auditSession timer) entry
    = (inr (pipeline_result lib w fullPrompt
              (clock w (S (S (ticks entry))) - startTime timer)),
       mkState (trace entry
                  ++ body_events lib w fullPrompt description sourceDir execContext
                                 auditSession timer (ticks entry))
               n l).
Proof.
  intros L.
  set (req := completion_request w fullPrompt (client_options lib w)).
  unfold try_catch, runClaudePrompt_try, pipeline_result, body_events.
  cbv beta iota zeta delta [mbind Exec_bind].
  rewrite processMessageStream_run. fold req.
  cbn [deps_description deps_auditLogger trace ticks locals]. rewrite L.
  set (heartbeat := if _ && _ then _ else _).
  destruct (fetch w req) as [t|response].
  { rewrite runClaudePrompt_catch_trace. cbn [trace ticks locals turnCount totalCost].
    rewrite <- !app_assoc. eauto. }
  destruct (resp_ok response).
  2: { rewrite runClaudePrompt_catch_trace. cbn [trace ticks locals turnCount totalCost].
       rewrite <- !app_assoc. eauto. }
  destruct (resp_json response) as [t|completion].
  { rewrite runClaudePrompt_catch_trace. cbn [trace ticks locals turnCount totalCost].
    rewrite <- !app_assoc. eauto. }
  run_executor.
  set (text := nullish (first_content completion) EmptyString).
  destruct (isSpendingCapBehavior lib 1 0%Qc (or_default (Some text) EmptyString)).
  { rewrite runClaudePrompt_catch_trace. cbn [trace ticks locals turnCount totalCost].
    rewrite <- !app_assoc. eauto. }
  run_executor. rewrite <- !app_assoc. eauto.
Qed.

(** With a key in the environment, [runClaudePrompt] returns
    [pipeline_result] and its events are [pipeline_events]. *)
Lemma runClaudePrompt_trace (prompt sourceDir : string)
  (context description agentName auditSession : option string)
  (key : string) (s : State) :
  truthy (env w !! "OPENAI_API_KEY") = Some key →
  ∃ s',
    runClaudePrompt lib w prompt sourceDir context description agentName auditSession s
    = (inr (pipeline_result lib w
              (compose_prompt (default EmptyString context) prompt)
              (clock w (S (S (S (ticks s)))) - clock w (ticks s))), s')
    ∧ trace_since s s'
      = pipeline_events lib w prompt sourceDir context description auditSession
                        (ticks s).
Proof.
  intros K.
  unfold runClaudePrompt, pipeline_events. rewrite K. run_executor.
  set (fullPrompt := compose_prompt (default EmptyString context) prompt).
  set (description' := default "Claude analysis" description).
  set (execContext := detectExecutionContext lib description').
  set (timer := mkTimer _ _).
  destruct (useCleanOutput execContext); run_executor;
    match goal with |- context [runClaudePrompt_try _ _ _ _ _ _ _ _ ?entry] =>
      destruct (runClaudePrompt_body_trace fullPrompt description' sourceDir execContext
                  auditSession timer entry eq_refl) as (n & l & E);
      unfold try_catch in E; rewrite E;
      eexists; split; [reflexivity|];
      apply trace_since_app; cbn [trace ticks]; by rewrite <- !app_assoc
    end.
Qed.

(** X10. The error log is best effort: whatever [fs.appendFile] does,
    [writeErrorLog] resolves, having tried exactly one append, to
    [error.log] under the source directory, and nothing else but the one
    reading of the clock for the timestamp. *)
Theorem writeErrorLog_best_effort (error : Thrown) (sourceDir fullPrompt : string)
  (duration : Z) (s : State) :
  ∃ data s',
    writeErrorLog lib w error sourceDir fullPrompt duration s = (inr tt, s')
    ∧ trace_since s s' = [FsAppendFile (path_join lib sourceDir "error.log") data]
    ∧ ticks s' = S (ticks s) ∧ locals s' = locals s.
Proof.
  rewrite writeErrorLog_trace. eexists _, _. split; [reflexivity|].
  split; [by apply trace_since_app|]. by split.
Qed.

(** X11. With a key in the environment, every invocation, failed or not,
    issues exactly one request: authorised by that key, for the model
    OPENAI_MODEL names or else gpt-4.1, with the composed prompt as its one
    message. *)
Theorem runClaudePrompt_single_request (prompt sourceDir : string)
  (context description agentName auditSession : option string)
  (key : string) (s : State) :
  truthy (env w !! "OPENAI_API_KEY") = Some key →
  ∃ r s' req,
    runClaudePrompt lib w prompt sourceDir context description agentName auditSession s
    = (inr r, s')
    ∧ filter is_fetch (trace_since s s') = [Fetch req]
    ∧ req_authorization req = "Bearer " +:+ key
    ∧ req_model req = match truthy (env w !! "OPENAI_MODEL") with
                      | Some model => model
                      | None => "gpt-4.1"
                      end
    ∧ req_content req = match default EmptyString context with
                        | EmptyString => prompt
                        | c => c +:+ newline +:+ newline +:+ prompt
                        end.
Proof.
  intros K.
  destruct (runClaudePrompt_run lib w prompt sourceDir context description agentName
              auditSession key s K) as (s1 & E1 & F).
  eexists _, s1, _. split; [exact E1|]. split; [exact F|].
  split; [|split; [reflexivity|]].
  - cbn [req_authorization completion_request]. unfold or_default. by rewrite K.
  - cbn [req_content completion_request]. unfold compose_prompt.
    by destruct (default EmptyString context).
Qed.

(** X12. A result has one of two shapes, never a mix: a success carries
    text, turns, model and partial cost and no error field; a failure
    carries error message type, prompt preview and retryability and no
    text, turns or model. Either way the cost is 0 and the duration is the
    time between the first and the fourth reading of the clock. *)
Theorem runClaudePrompt_result_shape (prompt sourceDir : string)
  (context description agentName auditSession : option string)
  (s s' : State) (r : ClaudePromptResult) :
  runClaudePrompt lib w prompt sourceDir context description agentName auditSession s
  = (inr r, s') →
  r_cost r = 0%Qc
  ∧ r_duration r = clock w (S (S (S (ticks s)))) - clock w (ticks s)
  ∧ (r_success r = true
     ∧ is_Some (r_result r) ∧ is_Some (r_turns r) ∧ is_Some (r_model r)
     ∧ r_partialCost r = Some 0%Qc ∧ r_apiErrorDetected r = Some false
     ∧ r_error r = None ∧ r_errorType r = None ∧ r_prompt r = None
     ∧ r_retryable r = None
     ∨ r_success r = false
       ∧ r_result r = None ∧ r_turns r = None ∧ r_model r = None
       ∧ r_partialCost r = None ∧ r_apiErrorDetected r = None
       ∧ is_Some (r_errorType r) ∧ is_Some (r_prompt r) ∧ is_Some (r_retryable r)).
Proof.
  intros E.
  destruct (truthy (env w !! "OPENAI_API_KEY")) as [key|] eqn:K.
  2: { rewrite runClaudePrompt_no_key in E by exact K. discriminate E. }
  destruct (runClaudePrompt_run lib w prompt sourceDir context description agentName
              auditSession key s K) as (s0 & E' & _).
  rewrite E in E'. injection E' as -> _. unfold pipeline_result.
  destruct (fetch w _) as [t|response]; [by repeat split; right; repeat split|].
  destruct (resp_ok response); [|by repeat split; right; repeat split].
  destruct (resp_json response) as [t|completion];
    [by repeat split; right; repeat split|].
  cbv zeta. destruct (isSpendingCapBehavior lib 1 0%Qc _);
    [by repeat split; right; repeat split|].
  split; [reflexivity|]. split; [reflexivity|]. left. by repeat split.
Qed.

Ltac pipeline_cases :=
  unfold pipeline_events, body_events, pipeline_result, catch_events;
  cbv zeta;
  repeat match goal with
         | |- context [fetch ?w0 ?req] => destruct (fetch w0 req) as [?t|?response] eqn:?
         | |- context [resp_ok ?x] => destruct (resp_ok x) eqn:?
         | |- context [resp_json ?x] => destruct (resp_json x) as [?t|?completion] eqn:?
         | |- context [isSpendingCapBehavior ?l ?a ?b ?c] =>
           destruct (isSpendingCapBehavior l a b c) eqn:?
         | |- context [useCleanOutput ?x] => destruct (useCleanOutput x) eqn:?
         | |- context [bool_decide ?a && bool_decide ?b] =>
           destruct (bool_decide a && bool_decide b) eqn:?
         end.

(** X13. The progress reporter is started once and then told exactly
    once how the operation ended: finished, with the completion message
    for one turn and the duration of the result, after a success; stopped
    after a failure. An invocation that rejects has not started it. *)
Theorem runClaudePrompt_progress_bracket (prompt sourceDir : string)
  (context description agentName auditSession : option string) (s s' : State) :
  (∀ r,
     runClaudePrompt lib w prompt sourceDir context description agentName auditSession s
     = (inr r, s') →
     filter is_progress (trace_since s s')
     = [ProgressStart;
        if r_success r
        then ProgressFinish
               (formatCompletionMessage lib
                  (detectExecutionContext lib (default "Claude analysis" description))
                  (default "Claude analysis" description) 1 (r_duration r))
        else ProgressStop])
  ∧ (∀ t,
       runClaudePrompt lib w prompt sourceDir context description agentName auditSession s
       = (inl t, s') →
       filter is_progress (trace_since s s') = []).
Proof.
  destruct (truthy (env w !! "OPENAI_API_KEY")) as [key|] eqn:K.
  - destruct (runClaudePrompt_trace prompt sourceDir context description agentName
                auditSession key s K) as (s0 & E & T).
    rewrite E. split; [|discriminate].
    intros r [= <- <-]. rewrite T.
    pipeline_cases; destruct auditSession;
      rewrite ?filter_app, ?(filter_console_out is_progress) by done; reflexivity.
  - rewrite runClaudePrompt_no_key by exact K. split; [discriminate|].
    intros t [= _ <-]. erewrite trace_since_app; [|reflexivity]. reflexivity.
Qed.

(** X14. With an audit session bound, a success appends one response
    record, for turn 1 with the text of the result, and no error record; a
    failure appends exactly one error record, with the duration of the
    result and as turn count the number of response records appended before
    it (0 when the request failed, 1 when the spending cap was detected).
    Without a session nothing is appended. *)
Theorem runClaudePrompt_audit_records (prompt sourceDir : string)
  (context description agentName auditSession : option string)
  (s s' : State) (r : ClaudePromptResult) :
  runClaudePrompt lib w prompt sourceDir context description agentName auditSession s
  = (inr r, s') →
  match auditSession with
  | None => filter is_audit (trace_since s s') = []
  | Some session =>
    if r_success r
    then ∃ text, r_result r = Some text
                 ∧ filter is_audit (trace_since s s')
                   = [AuditLlmResponse session 1 text]
    else ∃ error,
           r_errorType r = Some (cast_ctor error)
           ∧ (filter is_audit (trace_since s s')
              = [AuditError session error (r_duration r) 0]
              ∨ ∃ text, filter is_audit (trace_since s s')
                        = [AuditLlmResponse session 1 text;
                           AuditError session error (r_duration r) 1])
  end.
Proof.
  intros E.
  destruct (truthy (env w !! "OPENAI_API_KEY")) as [key|] eqn:K.
  2: { rewrite runClaudePrompt_no_key in E by exact K. discriminate E. }
  destruct (runClaudePrompt_trace prompt sourceDir context description agentName
              auditSession key s K) as (s0 & E' & T).
  rewrite E in E'. injection E' as -> ->. rewrite T.
  destruct auditSession as [session|]; pipeline_cases;
    rewrite ?filter_app, ?(filter_console_out is_audit) by done;
    cbn [r_success failure_result];
    first [ reflexivity
          | eexists; split; [reflexivity|]; first [reflexivity | left; reflexivity
                                                  | right; eexists; reflexivity] ].
Qed.


(** X16. The prompt preview of a failure is the first 100 characters of
    the composed prompt followed by three dots: at most 103 characters,
    and the whole prompt followed by the dots when the prompt has at most
    100. *)
Theorem runClaudePrompt_prompt_preview (prompt sourceDir : string)
  (context description agentName auditSession : option string)
  (s s' : State) (r : ClaudePromptResult) :
  runClaudePrompt lib w prompt sourceDir context description agentName auditSession s
  = (inr r, s') →
  r_success r = false →
  let fullPrompt := compose_prompt (default EmptyString context) prompt in
  ∃ head tail,
    fullPrompt = head +:+ tail
    ∧ String.length head = Nat.min 100 (String.length fullPrompt)
    ∧ r_prompt r = Some (head +:+ "...")
    ∧ (String.length (head +:+ "...") ≤ 103)%nat
    ∧ ((String.length fullPrompt ≤ 100)%nat → head +:+ "..." = fullPrompt +:+ "...").
Proof.
  intros E S fullPrompt.
  destruct (truthy (env w !! "OPENAI_API_KEY")) as [key|] eqn:K.
  2: { rewrite runClaudePrompt_no_key in E by exact K. discriminate E. }
  destruct (runClaudePrompt_run lib w prompt sourceDir context description agentName
              auditSession key s K) as (s0 & E' & _).
  rewrite E in E'. injection E' as -> _. fold fullPrompt in S |- *.
  destruct (slice0_prefix 100 fullPrompt) as (tail & P & L).
  exists (slice0 100 fullPrompt), tail.
  split; [exact P|]. split; [exact L|]. split; [|split].
  - revert S. pipeline_cases; first [discriminate | reflexivity].
  - rewrite append_length, L. change (String.length "...") with 3%nat. lia.
  - intros H. by rewrite slice0_short.
Qed.

(** X17. A success always names a model: the one the completion reports,
    else the one OPENAI_MODEL names, else gpt-4.1; never the empty
    string. *)
Theorem runClaudePrompt_success_names_model (prompt sourceDir : string)
  (context description agentName auditSession : option string)
  (s s' : State) (r : ClaudePromptResult) :
  runClaudePrompt lib w prompt sourceDir context description agentName auditSession s
  = (inr r, s') →
  r_success r = true →
  ∃ response completion model,
    fetch w (completion_request w
               (compose_prompt (default EmptyString context) prompt)
               (client_options lib w)) = inr response
    ∧ resp_json response = inr completion
    ∧ r_model r = Some model
    ∧ model = match cmp_model completion with
              | Some (String c reported) => String c reported
              | _ => match env w !! "OPENAI_MODEL" with
                     | Some (String c configured) => String c configured
                     | _ => "gpt-4.1"
                     end
              end
    ∧ model ≠ EmptyString.
Proof.
  intros E S.
  destruct (truthy (env w !! "OPENAI_API_KEY")) as [key|] eqn:K.
  2: { rewrite runClaudePrompt_no_key in E by exact K. discriminate E. }
  destruct (runClaudePrompt_run lib w prompt sourceDir context description agentName
              auditSession key s K) as (s0 & E' & _).
  rewrite E in E'. injection E' as -> _.
  revert S. pipeline_cases; try discriminate. intros _.
  eexists _, _, _. split; [reflexivity|]. split; [eassumption|].
  split; [reflexivity|]. split.
  - unfold client_options, or_default. cbn [opt_model].
    destruct (cmp_model _) as [[|c reported]|]; cbn [truthy]; try reflexivity;
      by destruct (env w !! "OPENAI_MODEL") as [[|c' configured]|].
  - apply or_default_nonempty. by apply or_default_nonempty.
Qed.

End ExecutorFootprint.

Section ValidationFootprint.

Context (lib : Collaborators).

(** X18. [validateAgentOutput] never rejects, whatever the agent name
    and whatever the registered validators or the inherited members do
    when called: it always resolves. *)
Theorem validateAgentOutput_never_rejects (res : ClaudePromptResult)
  (agentName : option string) (sourceDir : string) (s : State) :
  ∃ verdict s', validateAgentOutput lib res agentName sourceDir s = (inr verdict, s').
Proof.
  unfold validateAgentOutput. run_exec.
  destruct (r_success res); [|cbn; eauto].
  destruct (truthy (r_result res)); [|cbn; eauto].
  cbn [orb]. rewrite bool_decide_eq_true_2 by eauto. run_exec.
  destruct (match truthy agentName with
            | Some name => lookup_validator lib name
            | None => None
            end) as [[validate|member]|]; run_exec; [| |eauto].
  - unfold call_validator. run_exec.
    destruct (validate sourceDir _) as [[t|verdict] s1]; [eauto|].
    destruct verdict; cbn; eauto.
  - unfold call_validator. run_exec. destruct member; cbn; eauto.
Qed.

(** X19. For a successful result with a text and an agent with a
    registered validator, the validator is run on the source directory
    after the two announcing log lines, and decides: its verdict is
    returned, with one log line telling which it was; if it rejects, the
    verdict is false and the message of the thrown value is logged. *)
Theorem validateAgentOutput_validator_decides (res : ClaudePromptResult)
  (name text sourceDir : string) (validate : string → Exec bool) (s : State) :
  r_success res = true →
  r_result res = Some text → text ≠ EmptyString →
  name ≠ EmptyString →
  AGENT_VALIDATORS lib !! name = Some validate →
  let ready :=
    mkState (trace s ++ [LogInfo ("Validating " +:+ name +:+ " agent output");
                         LogInfo ("Using validator for agent: " +:+ name)])
            (ticks s) (locals s) in
  validateAgentOutput lib res (Some name) sourceDir s
  = match validate sourceDir ready with
    | (inr verdict, s1) =>
      (inr (VBool verdict),
       mkState (trace s1
                  ++ [if verdict
                      then LogInfo "Validation passed: Required files/structure present"
                      else LogError "Validation failed: Missing required deliverable files"])
               (ticks s1) (locals s1))
    | (inl error, s1) =>
      (inr (VBool false),
       mkState (trace s1
                  ++ [LogError ("Validation failed with error: " +:+ message_of error)])
               (ticks s1) (locals s1))
    end.
Proof.
  intros S R T N V ready. subst ready.
  unfold validateAgentOutput, lookup_validator. run_exec. rewrite S, R.
  assert (truthy (Some text) = Some text) as -> by (by destruct text).
  assert (truthy (Some name) = Some name) as -> by (by destruct name).
  cbn [orb negb]. rewrite bool_decide_eq_true_2 by eauto.
  rewrite V. unfold call_validator. run_exec. cbn [render].
  rewrite <- !app_assoc. cbn [app].
  destruct (validate sourceDir _) as [[t|verdict] s1]; [reflexivity|].
  destruct verdict; reflexivity.
Qed.

(** X20. For an unsuccessful result, or one without text, no validator
    is run, registered or not: the verdict is false and the only events
    are the announcing line and the line that reports the failure. *)
Theorem validateAgentOutput_skips_validators (res : ClaudePromptResult)
  (agentName : option string) (sourceDir : string) (s : State) :
  r_success res = false ∨ r_result res = None ∨ r_result res = Some EmptyString →
  validateAgentOutput lib res agentName sourceDir s
  = (inr (VBool false),
     mkState (trace s
                ++ [LogInfo ("Validating " +:+ render agentName +:+ " agent output");
                    LogError "Validation failed: Agent execution was unsuccessful"])
             (ticks s) (locals s)).
Proof.
  intros H. unfold validateAgentOutput. run_exec.
  destruct H as [->|[->| ->]]; [|destruct (r_success res)..];
    cbn; by rewrite <- !app_assoc.
Qed.

End ValidationFootprint.

(** *** More of the executor on the sample worlds *)

Lemma runClaudePrompt_single_request_witness :
  ∃ r s' req,
    runClaudePrompt sample_lib world_rate_limited "Map the attack surface" "/repo"
                    (Some "Scope: staging only") None None None state0 = (inr r, s')
    ∧ filter is_fetch (trace_since state0 s') = [Fetch req]
    ∧ req_authorization req = "Bearer sk-test"
    ∧ req_model req = "gpt-4.1"
    ∧ req_content req
      = "Scope: staging only" +:+ newline +:+ newline +:+ "Map the attack surface".
Proof.
  apply (runClaudePrompt_single_request sample_lib world_rate_limited
           "Map the attack surface" "/repo" (Some "Scope: staging only")
           None None None "sk-test" state0).
  reflexivity.
Defined.

Lemma runClaudePrompt_result_shape_witness :
  ∃ r s',
    runClaudePrompt sample_lib world_rate_limited "Map the attack surface" "/repo"
                    None None None None state0 = (inr r, s')
    ∧ r_cost r = 0%Qc
    ∧ r_duration r = 3000
    ∧ r_success r = false.
Proof.
  destruct (runClaudePrompt sample_lib world_rate_limited "Map the attack surface"
              "/repo" None None None None state0) as [[t|r] s'] eqn:E.
  { vm_compute in E. discriminate E. }
  destruct (runClaudePrompt_result_shape sample_lib world_rate_limited
              "Map the attack surface" "/repo" None None None None state0 s' r E)
    as (C & D & Shape).
  exists r, s'. split; [reflexivity|]. split; [exact C|]. split; [exact D|].
  destruct Shape as [(S & _)|(S & _)]; [|exact S].
  vm_compute in E. injection E as <- _. discriminate S.
Defined.

Lemma runClaudePrompt_progress_bracket_witness :
  (∃ r s',
     runClaudePrompt sample_lib world_ready "ping" "/repo" None (Some "Recon")
                     None None state0 = (inr r, s')
     ∧ filter is_progress (trace_since state0 s')
       = [ProgressStart; ProgressFinish "Recon completed"])
  ∧ (∃ t s',
       runClaudePrompt sample_lib world_no_key "ping" "/repo" None (Some "Recon")
                       None None state0 = (inl t, s')
       ∧ filter is_progress (trace_since state0 s') = []).
Proof.
  split.
  - destruct (runClaudePrompt sample_lib world_ready "ping" "/repo" None (Some "Recon")
                None None state0) as [[t|r] s'] eqn:E.
    { vm_compute in E. discriminate E. }
    exists r, s'. split; [reflexivity|].
    rewrite (proj1 (runClaudePrompt_progress_bracket sample_lib world_ready "ping"
                      "/repo" None (Some "Recon") None None state0 s') r E).
    vm_compute in E. injection E as <- _. reflexivity.
  - destruct (runClaudePrompt sample_lib world_no_key "ping" "/repo" None (Some "Recon")
                None None state0) as [[t|r] s'] eqn:E.
    2: { vm_compute in E. discriminate E. }
    exists t, s'. split; [reflexivity|].
    exact (proj2 (runClaudePrompt_progress_bracket sample_lib world_no_key "ping"
                    "/repo" None (Some "Recon") None None state0 s') t E).
Defined.

Lemma runClaudePrompt_audit_records_witness :
  ∃ r s' error,
    runClaudePrompt sample_lib world_capped "ping" "/repo" None None None
                    (Some "audit-1") state0 = (inr r, s')
    ∧ r_success r = false
    ∧ filter is_audit (trace_since state0 s')
      = [AuditLlmResponse "audit-1" 1 placeholder;
         AuditError "audit-1" error 3000 1].
Proof.
  destruct (runClaudePrompt sample_lib world_capped "ping" "/repo" None None None
              (Some "audit-1") state0) as [[t|r] s'] eqn:E.
  { vm_compute in E. discriminate E. }
  pose proof (runClaudePrompt_audit_records sample_lib world_capped "ping" "/repo"
                None None None (Some "audit-1") state0 s' r E) as A.
  assert (r_success r = false ∧ r_duration r = 3000) as [S D].
  { vm_compute in E. injection E as <- _. split; reflexivity. }
  cbv beta iota in A. rewrite S, D in A. destruct A as (error & _ & [A|(text & A)]).
  - exfalso. vm_compute in E. injection E as _ <-. vm_compute in A. discriminate A.
  - exists r, s', error. split; [reflexivity|]. split; [exact S|].
    rewrite A. f_equal.
    vm_compute in E. injection E as _ <-. vm_compute in A. by injection A as <-.
Defined.


Lemma runClaudePrompt_prompt_preview_witness :
  (∃ r s',
     runClaudePrompt sample_lib world_rate_limited "Map the attack surface" "/repo"
                     None None None None state0 = (inr r, s')
     ∧ r_prompt r = Some "Map the attack surface...")
  ∧ (∃ r s' head,
       runClaudePrompt sample_lib world_rate_limited long_prompt "/repo"
                       None None None None state0 = (inr r, s')
       ∧ r_prompt r = Some (head +:+ "...")
       ∧ String.length head = 100%nat
       ∧ long_prompt = head +:+ "ABCDEFGHIJKLMNOPQRST").
Proof.
  split.
  - destruct (runClaudePrompt sample_lib world_rate_limited "Map the attack surface"
                "/repo" None None None None state0) as [[t|r] s'] eqn:E.
    { vm_compute in E. discriminate E. }
    assert (r_success r = false) as S.
    { vm_compute in E. by injection E as <- _. }
    destruct (runClaudePrompt_prompt_preview sample_lib world_rate_limited
                "Map the attack surface" "/repo" None None None None state0 s' r E S)
      as (head & tail & _ & _ & P & _ & Short).
    exists r, s'. split; [reflexivity|]. rewrite P, Short; [reflexivity|].
    vm_compute. lia.
  - destruct (runClaudePrompt sample_lib world_rate_limited long_prompt
                "/repo" None None None None state0) as [[t|r] s'] eqn:E.
    { vm_compute in E. discriminate E. }
    assert (r_success r = false
            ∧ r_prompt r
              = Some (slice0 100 long_prompt +:+ "...")) as [S Q].
    { vm_compute in E. injection E as <- _. split; reflexivity. }
    destruct (runClaudePrompt_prompt_preview sample_lib world_rate_limited
                long_prompt "/repo" None None None None state0 s' r E S)
      as (head & tail & _ & L & P & _).
    exists r, s', head. split; [reflexivity|]. split; [exact P|].
    split; [exact L|].
    rewrite P in Q. injection Q as Q.
    assert (head = slice0 100 long_prompt) as ->.
    { revert Q. generalize (slice0 100 long_prompt). clear.
      induction head as [|c head IH]; intros [|c' other] Q; simpl in Q;
        try reflexivity; try discriminate Q.
      - destruct other as [|? [|? [|? ?]]]; discriminate Q.
      - destruct head as [|? [|? [|? ?]]]; discriminate Q.
      - injection Q as -> Q. f_equal. by apply IH. }
    reflexivity.
Defined.

Lemma runClaudePrompt_success_names_model_witness :
  (∃ r s',
     runClaudePrompt sample_lib world_ready "ping" "/repo" None None None None state0
     = (inr r, s')
     ∧ r_model r = Some "gpt-4.1-2025-04-14")
  ∧ (∃ r s',
       runClaudePrompt sample_lib world_model_override "ping" "/repo" None None None
                       None state0 = (inr r, s')
       ∧ r_model r = Some "gpt-4o").
Proof.
  split.
  - destruct (runClaudePrompt sample_lib world_ready "ping" "/repo" None None None None
                state0) as [[t|r] s'] eqn:E.
    { vm_compute in E. discriminate E. }
    assert (r_success r = true) as S.
    { vm_compute in E. by injection E as <- _. }
    destruct (runClaudePrompt_success_names_model sample_lib world_ready "ping" "/repo"
                None None None None state0 s' r E S)
      as (response & completion & model & F & J & M & -> & _).
    exists r, s'. split; [reflexivity|]. rewrite M.
    vm_compute in F. injection F as <-. vm_compute in J. injection J as <-.
    reflexivity.
  - destruct (runClaudePrompt sample_lib world_model_override "ping" "/repo" None None
                None None state0) as [[t|r] s'] eqn:E.
    { vm_compute in E. discriminate E. }
    assert (r_success r = true) as S.
    { vm_compute in E. by injection E as <- _. }
    destruct (runClaudePrompt_success_names_model sample_lib world_model_override "ping"
                "/repo" None None None None state0 s' r E S)
      as (response & completion & model & F & J & M & -> & _).
    exists r, s'. split; [reflexivity|]. rewrite M.
    vm_compute in F. injection F as <-. vm_compute in J. injection J as <-.
    vm_compute. reflexivity.
Defined.

Lemma validateAgentOutput_validator_decides_witness :
  ∃ s', validateAgentOutput sample_lib (sample_result (Some "report")) (Some "recon")
                            "/repo" state0 = (inr (VBool true), s').
Proof.
  rewrite (validateAgentOutput_validator_decides sample_lib
             (sample_result (Some "report")) "recon" "report" "/repo"
             (λ _, mret true) state0); [|reflexivity|reflexivity|discriminate..|].
  - eexists. reflexivity.
  - vm_compute. reflexivity.
Defined.

Lemma validateAgentOutput_skips_validators_witness :
  validateAgentOutput sample_lib (sample_result None) (Some "recon") "/repo" state0
  = (inr (VBool false),
     mkState [LogInfo "Validating recon agent output";
              LogError "Validation failed: Agent execution was unsuccessful"]
             0 (locals state0)).
Proof.
  rewrite (validateAgentOutput_skips_validators sample_lib (sample_result None)
             (Some "recon") "/repo" state0); [reflexivity|].
  right; left. reflexivity.
Defined.
